(** * task_1.py: mean and standard deviation of a rating field by map/reduce

    The script reads one JSON document per file, extracts the field
    ['movieIMDbRating'] ([mapper]), and folds the emitted records
    [(count, score, score_squared)] into a mean and a standard deviation
    ([reducer]).

    The program is written once, over an interface [FloatArith] of the float
    operations it uses. Python's [float] is IEEE 754 binary64, and the
    properties of the script are stated at the instance [CPython]: binary64
    addition, subtraction and division, and the power operator as
    [float.__pow__] computes it, by its special cases and a call of the C
    library's [pow], which is a parameter. Two further instances serve the
    examples and the comparison with the specification:
    - [Binary64], where the C library rounds the square and the square root
      correctly, so that every result can be computed;
    - [Exact], the real numbers, where nothing is rounded. *)

From Stdlib Require Import ZArith List String Bool Permutation.
From Stdlib Require Import Reals Lra Lia Psatz.
From Stdlib Require Import Floats DecimalString.
Import ListNotations.

Set Implicit Arguments.
Set Warnings "-register-all".

(** ** Exceptions and results *)

(** The exceptions the script can raise, with the attribute that names a
    file where Python gives one ([OSError.filename]). [OSError] stands for
    the failures of [open] other than the three named ones, and [OtherError]
    for an exception of any other class, by the name of the class. *)
Inductive exn : Type :=
| FileNotFoundError (filename : string)
| IsADirectoryError (filename : string)
| PermissionError (filename : string)
| OSError (filename : string)
| UnicodeDecodeError
| JSONDecodeError
| RecursionError
| KeyError (key : string)
| TypeError
| ValueError
| OverflowError
| ZeroDivisionError
| OtherError (name : string).

(** Python's [ArithmeticError] and its subclasses. *)
Definition is_ArithmeticError (e : exn) : bool :=
  match e with
  | OverflowError | ZeroDivisionError => true
  | _ => false
  end.


Inductive result (A : Type) : Type :=
| Ok (a : A)
| Raise (e : exn).

Arguments Ok {A} a.
Arguments Raise {A} e.

Definition bind {A B : Type} (r : result A) (k : A -> result B) : result B :=
  match r with
  | Ok a => k a
  | Raise e => Raise e
  end.

Notation "x <- r ;; k" := (bind r (fun x => k))
  (at level 61, r at next level, right associativity).

Definition raises {A : Type} (r : result A) : bool :=
  match r with
  | Ok _ => false
  | Raise _ => true
  end.

(** ** Numbers *)

(** The value of [x ** 0.5]: a float, or a complex number when [x] is
    negative. *)
Inductive number (F : Type) : Type :=
| Float (x : F)
| Complex (re im : F).

Arguments Float {F} x.
Arguments Complex {F} re im.

(** The float operations of the script. *)
Class FloatArith (F : Type) : Type := {
  f_zero : F;                        (* 0.0 *)
  f_of_int : Z -> result F;          (* int -> float, as float(n) and the
                                        coercion of an int operand *)
  f_is_zero : F -> bool;             (* x == 0.0 *)
  f_add : F -> F -> F;               (* x + y *)
  f_sub : F -> F -> F;               (* x - y *)
  f_div : F -> F -> F;               (* x / y for y != 0.0 *)
  f_pow2 : F -> result F;            (* x ** 2 *)
  f_pow_half : F -> result (number F) (* x ** 0.5 *)
}.

(** ** The program *)

(** The field the script extracts. *)
Definition key : string := "movieIMDbRating".

Section Program.

Context {F : Type} {arith : FloatArith F}.

(** What [json.load] returns. A dict is kept as the list of its items, one
    per key. *)
Inductive pyobj : Type :=
| PyNone
| PyBool (b : bool)
| PyInt (z : Z)
| PyFloat (x : F)
| PyStr (s : string)
| PyList (items : list pyobj)
| PyDict (items : list (string * pyobj)).

(** What is at a path, by what [open] and [json.load] make of it. *)
Inductive file : Type :=
| Directory                (* a directory *)
| Unreadable               (* a file the process may not read *)
| Unopenable               (* a file [open] fails on for another reason *)
| Undecodable              (* bytes that are not text in the encoding of
                              [open] *)
| NotJSON                  (* text that is not JSON *)
| TooDeep                  (* JSON nested beyond the recursion limit *)
| TooManyDigits            (* JSON with an integer beyond the digit limit of
                              [int] *)
| Broken (e : exn)         (* anything else [open] or [json.load] fails on,
                              with the exception raised *)
| Document (info : pyobj).

Definition filesystem : Type := string -> option file.

(** [float(s)] for a string [s] is the C library's reader; the program is
    read for any such reader. *)
Variable float_of_str : string -> option F.

(** [open(path, 'r')] followed by [json.load(f)]. A path that is not in the
    file system is a missing file. *)
Definition json_load (fs : filesystem) (path : string) : result pyobj :=
  match fs path with
  | None => Raise (FileNotFoundError path)
  | Some Directory => Raise (IsADirectoryError path)
  | Some Unreadable => Raise (PermissionError path)
  | Some Unopenable => Raise (OSError path)
  | Some Undecodable => Raise UnicodeDecodeError
  | Some NotJSON => Raise JSONDecodeError
  | Some TooDeep => Raise RecursionError
  | Some TooManyDigits => Raise ValueError
  | Some (Broken e) => Raise e
  | Some (Document info) => Ok info
  end.

Fixpoint dict_get (items : list (string * pyobj)) (key : string) : option pyobj :=
  match items with
  | [] => None
  | (k, v) :: rest => if String.eqb k key then Some v else dict_get rest key
  end.

(** [obj[key]] for a string key. *)
Definition getitem (obj : pyobj) (key : string) : result pyobj :=
  match obj with
  | PyDict items =>
      match dict_get items key with
      | Some v => Ok v
      | None => Raise (KeyError key)
      end
  | _ => Raise TypeError
  end.

(** [float(obj)]. *)
Definition py_float (obj : pyobj) : result F :=
  match obj with
  | PyFloat x => Ok x
  | PyInt z => f_of_int z
  | PyBool b => f_of_int (if b then 1 else 0)%Z
  | PyStr s =>
      match float_of_str s with
      | Some x => Ok x
      | None => Raise ValueError
      end
  | PyNone | PyList _ | PyDict _ => Raise TypeError
  end.

(** A record [(count, score, score_squared)]. *)
Definition record : Type := (Z * F * F)%type.

(** The records [mapper(path)] yields when it is iterated, or the exception
    its body raises. *)
Definition mapper (fs : filesystem) (path : string) : result (list record) :=
  info <- json_load fs path ;;
  field <- getitem info key ;;
  score <- py_float field ;;
  score_squared <- f_pow2 score ;;
  Ok [(1%Z, score, score_squared)].

(** The three running values of [reducer]. *)
Record accumulator : Type := Acc {
  n : Z;
  sum_score : F;
  sum_score_squared : F
}.

Definition initial : accumulator := Acc 0%Z f_zero f_zero.

(** One turn of the [for] loop. *)
Definition step (a : accumulator) (r : record) : accumulator :=
  let '(count, score, score_squared) := r in
  Acc (n a + count)%Z
      (f_add (sum_score a) score)
      (f_add (sum_score_squared a) score_squared).

(** [x / k] for a float [x] and an int [k]. *)
Definition truediv (x : F) (k : Z) : result F :=
  d <- f_of_int k ;;
  if f_is_zero d then Raise ZeroDivisionError else Ok (f_div x d).

(** The three lines after the loop. *)
Definition finish (a : accumulator) : result (F * number F) :=
  mean <- truediv (sum_score a) (n a) ;;
  mean_squares <- truediv (sum_score_squared a) (n a) ;;
  squared_mean <- f_pow2 mean ;;
  let variance := f_sub mean_squares squared_mean in
  stddev <- f_pow_half variance ;;
  Ok (mean, stddev).

Definition reducer (data : list record) : result (F * number F) :=
  finish (fold_left step data initial).

(** *** The two stages together *)

(** The values of a list of results, up to the first exception. *)
Fixpoint collect {A : Type} (rs : list (result A)) : result (list A) :=
  match rs with
  | [] => Ok []
  | r :: rest => a <- r ;; others <- collect rest ;; Ok (a :: others)
  end.

(** The map stage and the reduce stage composed on records: [mapper] on each
    file in turn, [reducer] over the records they yield. *)
Definition pipeline (fs : filesystem) (files : list string)
  : result (F * number F) :=
  batches <- collect (map (mapper fs) files) ;;
  reducer (List.concat batches).

(** *** The script as it is written *)

(** The value of a call [mapper(path)]: a generator object. The call runs
    none of the body; [gen_items] is what iterating the object gives. *)
Record generator : Type := Generator {
  gen_items : result (list record)
}.

Definition mapper_call (fs : filesystem) (path : string) : generator :=
  Generator (mapper fs path).

(** A worker of [ProcessPoolExecutor] sends the value of its call to the
    parent process pickled, and a generator object cannot be pickled: where
    the workers are forked, the parent receives a [TypeError] in place of
    the value. *)
Definition pickle (g : generator) : result generator := Raise TypeError.

(** The iterator [executor.map(mapper, files)]: one result per file, in the
    order of [files]. *)
Definition executor_map (fs : filesystem) (files : list string)
  : list (result generator) :=
  map (fun path => pickle (mapper_call fs path)) files.

(** [count, score, score_squared = item] for an item that is a generator:
    the generator is iterated and must give three values, and the values
    that [mapper] yields are tuples, which [n += count] rejects. *)
Definition unpack (item : generator) : result record :=
  items <- gen_items item ;;
  match items with
  | [_; _; _] => Raise TypeError
  | _ => Raise ValueError
  end.

(** The [for] loop of [reducer] over an iterator whose items can raise. *)
Fixpoint loop (data : list (result generator)) (a : accumulator)
  : result accumulator :=
  match data with
  | [] => Ok a
  | next :: rest =>
      item <- next ;;
      r <- unpack item ;;
      loop rest (step a r)
  end.

(** [result = reducer(mapped_data)] at module level. *)
Definition run (fs : filesystem) (files : list string) : result (F * number F) :=
  a <- loop (executor_map fs files) initial ;;
  finish a.

(** *** Properties of documents *)



(** The file at [path] is a document whose value under the key [float]
    turns into [v]. *)
Definition rated (fs : filesystem) (path : string) (v : F) : Prop :=
  exists info field,
    fs path = Some (Document info) /\
    getitem info key = Ok field /\
    py_float field = Ok v.

End Program.

Arguments pyobj F : clear implicits.
Arguments file F : clear implicits.
Arguments filesystem F : clear implicits.
Arguments record F : clear implicits.
Arguments accumulator F : clear implicits.
Arguments generator F : clear implicits.

(** ** Exact arithmetic *)

Module Exact.

Open Scope R_scope.

(** [x ** 0.5] over the reals: the principal square root, which is
    [i * sqrt (- x)] for a negative [x]. *)
Definition pow_half (x : R) : number R :=
  if Rlt_dec x 0 then Complex 0 (R_sqrt.sqrt (- x)) else Float (R_sqrt.sqrt x).

#[global] Instance arith : FloatArith R := {|
  f_zero := 0;
  f_of_int := fun z => Ok (IZR z);
  f_is_zero := fun x => if Req_dec_T x 0 then true else false;
  f_add := Rplus;
  f_sub := Rminus;
  f_div := Rdiv;
  f_pow2 := fun x => Ok (x * x);
  f_pow_half := fun x => Ok (pow_half x)
|}.

(** A record of the shape [mapper] yields: [(1, v, v * v)]. *)
Definition mapper_shaped (r : record R) : Prop :=
  let '(count, score, score_squared) := r in
  count = 1%Z /\ score_squared = score * score.

(** A record that keeps [value_squared == value * value]. *)
Definition square_kept (r : record R) : Prop :=
  let '(_, score, score_squared) := r in score_squared = score * score.

Definition count_positive (r : record R) : Prop :=
  (1 <= fst (fst r))%Z.

Definition kept (r : record R) : Prop :=
  count_positive r /\ square_kept r.

End Exact.

(** ** The algorithm in the words of the specification *)

(** With [n] the sum of the counts, [S] the sum of the values and [Q] the sum
    of the squared values: [mean = S / n], [variance = Q / n - mean ^ 2],
    [stddev = sqrt variance]. First over the real numbers. *)
Module Spec.

Open Scope R_scope.

Definition n (data : list (record R)) : Z :=
  fold_right Z.add 0%Z (map (fun r : record R => fst (fst r)) data).

Definition S (data : list (record R)) : R :=
  fold_right Rplus 0 (map (fun r : record R => snd (fst r)) data).

Definition Q (data : list (record R)) : R :=
  fold_right Rplus 0 (map (fun r : record R => snd r) data).

Definition mean (data : list (record R)) : R := S data / IZR (n data).

Definition variance (data : list (record R)) : R :=
  Q data / IZR (n data) - (mean data) ^ 2.

Definition stddev (data : list (record R)) : R := R_sqrt.sqrt (variance data).

End Spec.

(** ** Binary64 arithmetic *)

Module Binary64.

Open Scope float_scope.

(** [float(z)]: the nearest binary64 number, ties to even; Python raises
    [OverflowError] when that is beyond the largest finite one. *)
Definition of_int (z : Z) : result float :=
  let x := SF2Prim (binary_normalize prec emax z 0 false) in
  if is_infinity x then Raise OverflowError else Ok x.

(** [x ** 2], with the C library's [pow (x, 2.0)] taken as the correctly
    rounded square. [float.__pow__] returns the square of a NaN or of an
    infinity as it is, and raises [OverflowError] when the square of a finite
    number is beyond the largest finite one. *)
Definition square_overflows (x : float) : bool :=
  is_finite x && is_infinity (x * x).

Definition pow2 (x : float) : result float :=
  if square_overflows x then Raise OverflowError else Ok (x * x).

(** The cosine of the binary64 number nearest to pi / 2, as the C library
    returns it: 6.123233995736766e-17. *)
Definition cos_half_pi : float := 0x1.1a62633145c07p-54.

(** [x ** 0.5], with the C library's [pow (x, 0.5)] taken as the correctly
    rounded square root. [float.__pow__] returns NaN for NaN, the positive
    infinity for both infinities, 0.0 for both zeros, and for any other
    negative [x] the complex power: modulus [(- x) ** 0.5], phase pi / 2. *)
Definition pow_half (x : float) : number float :=
  if is_nan x then Float x
  else if is_infinity x then Float infinity
  else if is_zero x then Float 0
  else if x <? 0 then
    let len := PrimFloat.sqrt (abs x) in Complex (len * cos_half_pi) len
  else Float (PrimFloat.sqrt x).

#[global] Instance arith : FloatArith float := {|
  f_zero := 0;
  f_of_int := of_int;
  f_is_zero := is_zero;
  f_add := add;
  f_sub := sub;
  f_div := div;
  f_pow2 := pow2;
  f_pow_half := fun x => Ok (pow_half x)
|}.

(** A string reader for the examples: unsigned decimal integers. *)
Definition read_digits (s : string) : option float :=
  match NilZero.uint_of_string s with
  | Some d => Some (SF2Prim (binary_normalize prec emax (Z.of_uint d) 0 false))
  | None => None
  end.

(** A directory of documents [{"movieIMDbRating": v}], one per value, named
    by their position. *)
Definition doc (v : float) : file float :=
  Document (PyDict [("movieIMDbRating"%string, PyFloat v)]).

Definition name (i : nat) : string :=
  (NilZero.string_of_uint (Nat.to_uint i) ++ ".json")%string.

Fixpoint directory_from (i : nat) (values : list float) : filesystem float :=
  match values with
  | [] => fun _ => None
  | v :: rest =>
      fun path =>
        if String.eqb path (name i) then Some (doc v)
        else directory_from (Datatypes.S i) rest path
  end.

Definition directory (values : list float) : filesystem float :=
  directory_from 0 values.

Definition names (values : list float) : list string :=
  map name (List.seq 0 (List.length values)).

Definition textbook : list float := [2; 4; 4; 4; 5; 5; 7; 9].

(** 1e200, as [float] reads it. *)
Definition huge : float := 0x1.4e718d7d7625ap+664.

(** 0.1, as [float] reads it. *)
Definition tenth : float := 0x1.999999999999ap-4.


(** A directory with a document that has a rating and one that has none. *)
Definition mixed : filesystem float :=
  fun path =>
    if String.eqb path "a.json" then Some (doc 7.5)
    else if String.eqb path "b.json"
    then Some (Document (PyDict [("title"%string, PyStr "Alien")]))
    else None.

End Binary64.

(** ** The power operator of CPython *)

(** [x ** 2] and [x ** 0.5] for a float [x] are [float.__pow__], which
    handles NaN, the infinities, the zeros, a negative base and the base 1.0
    itself and hands every other base to the C library's [pow]. The C
    library is not part of the script and does not round [pow] correctly;
    its functions are parameters here. *)
Module CPython.

Open Scope float_scope.

(** The value of [errno] after a call of the C library that started with
    [errno] at 0; [EOTHER] is any value other than the three named. *)
Inductive errno : Type := E0 | ERANGE | EDOM | EOTHER.

Record libm : Type := Libm {
  libm_pow : float -> float -> float;      (* pow (x, y) *)
  libm_errno : float -> float -> errno;    (* errno after pow (x, y) *)
  c_pow : float -> float * float;          (* the complex power of x + 0j to
                                              0.5 + 0j, real and imaginary
                                              part *)
  c_pow_errno : float -> errno             (* errno after that power *)
}.

(** What [float.__pow__] makes of [errno]: an infinite result is a range
    error whether the library reports it or not, and an underflow to zero is
    none. *)
Definition adjust_erange1 (x : float) (e : errno) : errno :=
  match e with
  | E0 => if is_infinity x then ERANGE else E0
  | ERANGE => if is_zero x then E0 else ERANGE
  | EDOM | EOTHER => e
  end.

(** The same for the two parts of a complex result. *)
Definition adjust_erange2 (x y : float) (e : errno) : errno :=
  if is_infinity x || is_infinity y then
    match e with
    | E0 => ERANGE
    | _ => e
    end
  else
    match e with
    | ERANGE => E0
    | _ => e
    end.

(** The call of [pow] and the exception for the [errno] it leaves. *)
Definition checked_pow (m : libm) (iv iw : float) : result float :=
  let ix := libm_pow m iv iw in
  match adjust_erange1 ix (libm_errno m iv iw) with
  | E0 => Ok ix
  | ERANGE => Raise OverflowError
  | EDOM | EOTHER => Raise ValueError
  end.

(** [iv ** 2]: the exponent is an even integer, so that a negative base is
    negated and the result is not. *)
Definition pow2 (m : libm) (iv : float) : result float :=
  if is_nan iv then Ok iv
  else if is_infinity iv then Ok (abs iv)
  else if is_zero iv then Ok 0
  else
    let iv := if iv <? 0 then - iv else iv in
    if iv =? 1 then Ok 1 else checked_pow m iv 2.

(** The power of a negative base to 0.5, which [float.__pow__] hands to
    [complex.__pow__]. *)
Definition complex_pow (m : libm) (iv : float) : result (number float) :=
  let '(re, im) := c_pow m iv in
  match adjust_erange2 re im (c_pow_errno m iv) with
  | EDOM => Raise ZeroDivisionError
  | ERANGE => Raise OverflowError
  | E0 | EOTHER => Ok (Complex re im)
  end.

(** [iv ** 0.5]. *)
Definition pow_half (m : libm) (iv : float) : result (number float) :=
  if is_nan iv then Ok (Float iv)
  else if is_infinity iv then Ok (Float (abs iv))
  else if is_zero iv then Ok (Float 0)
  else if iv <? 0 then complex_pow m iv
  else if iv =? 1 then Ok (Float 1)
  else x <- checked_pow m iv 0.5 ;; Ok (Float x).

(** Python's float arithmetic over a C library [m]. *)
Definition arith (m : libm) : FloatArith float := {|
  f_zero := 0;
  f_of_int := Binary64.of_int;
  f_is_zero := is_zero;
  f_add := add;
  f_sub := sub;
  f_div := div;
  f_pow2 := pow2 m;
  f_pow_half := pow_half m
|}.

(** Two properties of [pow] in the C standard: for a positive base it
    reports no domain error, and it returns no negative number. *)
Definition no_domain_error (m : libm) : Prop :=
  forall x y : float,
    (0 <? x) = true -> libm_errno m x y = E0 \/ libm_errno m x y = ERANGE.

Definition pow_not_negative (m : libm) : Prop :=
  forall x y : float, (0 <? x) = true -> (libm_pow m x y <? 0) = false.

(** A C library that rounds the square and the square root correctly and
    reports no error, for the examples. *)
Definition rounded : libm := {|
  libm_pow := fun x y => if y =? 2 then x * x else PrimFloat.sqrt x;
  libm_errno := fun _ _ => E0;
  c_pow := fun x =>
    let len := PrimFloat.sqrt (abs x) in (len * Binary64.cos_half_pi, len);
  c_pow_errno := fun _ => E0
|}.

End CPython.

(** ** The algorithm of the specification in binary64 *)

(** The three sums started at 0, 0.0 and 0.0 and taken in the order of the
    records, [n] converted to the nearest float as the division does,
    [mean ^ 2] as the product [mean * mean], and [sqrt] as the correctly
    rounded square root. *)
Module Spec64.

Open Scope float_scope.

Definition n (data : list (record float)) : Z :=
  fold_left Z.add (map (fun r : record float => fst (fst r)) data) 0%Z.

Definition S (data : list (record float)) : float :=
  fold_left add (map (fun r : record float => snd (fst r)) data) 0.

Definition Q (data : list (record float)) : float :=
  fold_left add (map (fun r : record float => snd r) data) 0.

Definition count (data : list (record float)) : float :=
  SF2Prim (binary_normalize prec emax (n data) 0 false).

Definition mean (data : list (record float)) : float := S data / count data.

Definition mean_of_squares (data : list (record float)) : float :=
  Q data / count data.

Definition variance (data : list (record float)) : float :=
  mean_of_squares data - mean data * mean data.

Definition stddev (data : list (record float)) : float :=
  PrimFloat.sqrt (variance data).

End Spec64.

(** ** The record of a document *)

(** [r] is the record [(1, v, v ** 2)] of the document at [path], rated
    [v], over the C library [m]. *)
Definition emitted (m : CPython.libm) (reader : string -> option float)
    (fs : filesystem float) (path : string) (r : record float) : Prop :=
  exists v p : float,
    rated (arith := CPython.arith m) reader fs path v /\
    CPython.pow2 m v = Ok p /\
    r = (1%Z, v, p).

(** ** Records for the examples *)

Module Examples.

Open Scope float_scope.

(** 5.4, as [float] reads it. *)
Definition rating : float := 0x1.599999999999ap+2.


(** What [mapper] yields for three documents rated 0.1 over the C library
    [CPython.rounded]. *)
Definition three_tenths : list (record float) :=
  [(1%Z, Binary64.tenth, Binary64.tenth * Binary64.tenth);
   (1%Z, Binary64.tenth, Binary64.tenth * Binary64.tenth);
   (1%Z, Binary64.tenth, Binary64.tenth * Binary64.tenth)].

(** A record has the count 1 and compares equal to the product of its value
    with itself. *)
Definition square_kept (r : record float) : bool :=
  let '(count, score, score_squared) := r in
  Z.eqb count 1 && (score_squared =? score * score).

(** 2.759, as [float] reads it, and the value of [2.759 ** 2] on a C library
    whose [pow] is one unit in the last place off the rounded product
    (glibc 2.36). *)
Definition odd_rating : float := 0x1.6126e978d4fdfp+1.

Definition odd_square : float := 0x1.e72c55c96030bp+2.

(** A C library that returns that value there and is [CPython.rounded]
    everywhere else. *)
Definition off_by_one : CPython.libm := {|
  CPython.libm_pow := fun x y =>
    if (x =? odd_rating) && (y =? 2) then odd_square
    else CPython.libm_pow CPython.rounded x y;
  CPython.libm_errno := fun _ _ => CPython.E0;
  CPython.c_pow := CPython.c_pow CPython.rounded;
  CPython.c_pow_errno := fun _ => CPython.E0
|}.

End Examples.

(** * Properties *)

(** ** The reduce stage in exact arithmetic *)

(** Over the real numbers the script is the algorithm of the specification,
    and the properties the specification states of it hold. They do not carry
    over to the floats: see the sections on binary64 below. *)

Section ExactReducer.

Local Open Scope R_scope.

Implicit Types (data : list (record R)) (a : accumulator R).

(** The loop adds the three sums of the data to the accumulator. *)
Lemma fold_step_sums data : forall a,
  fold_left step data a =
  Acc (n a + Spec.n data) (sum_score a + Spec.S data)
      (sum_score_squared a + Spec.Q data).
Proof.
  induction data as [| [[c v] v2] rest IH]; intros [k s q].
  - unfold Spec.n, Spec.S, Spec.Q. simpl. f_equal; [lia | lra | lra].
  - simpl fold_left. rewrite IH.
    unfold Spec.n, Spec.S, Spec.Q. simpl. f_equal; [lia | lra | lra].
Qed.

Lemma fold_step_initial data :
  fold_left step data initial = Acc (Spec.n data) (Spec.S data) (Spec.Q data).
Proof.
  rewrite fold_step_sums. unfold initial. simpl. f_equal; [lra | lra].
Qed.

Lemma truediv_zero (x : R) : truediv x 0 = Raise ZeroDivisionError.
Proof.
  unfold truediv. simpl. destruct (Req_dec_T 0 0) as [_ | H].
  - reflexivity.
  - exfalso. apply H. reflexivity.
Qed.

Lemma truediv_nonzero (x : R) (k : Z) :
  k <> 0%Z -> truediv x k = Ok (x / IZR k).
Proof.
  intros Hk. unfold truediv. simpl.
  destruct (Req_dec_T (IZR k) 0) as [H | _].
  - exfalso. apply Hk. apply eq_IZR_R0. exact H.
  - reflexivity.
Qed.

(** [reducer] is the algorithm of the specification wherever the counts do
    not sum to zero, and raises where they do. *)
Lemma reducer_exact data :
  reducer data =
  if Z.eqb (Spec.n data) 0 then Raise ZeroDivisionError
  else Ok (Spec.mean data, Exact.pow_half (Spec.variance data)).
Proof.
  unfold reducer. rewrite fold_step_initial. unfold finish. simpl n.
  simpl sum_score. simpl sum_score_squared.
  destruct (Z.eqb_spec (Spec.n data) 0) as [H0 | Hn].
  - rewrite H0, truediv_zero. reflexivity.
  - rewrite !truediv_nonzero by exact Hn. simpl.
    unfold Spec.variance, Spec.mean. do 3 f_equal. ring.
Qed.

Lemma pow_half_nonneg (x : R) :
  0 <= x -> Exact.pow_half x = Float (R_sqrt.sqrt x).
Proof.
  intros H. unfold Exact.pow_half. destruct (Rlt_dec x 0) as [Hlt | _].
  - lra.
  - reflexivity.
Qed.

(** *** The three sums do not depend on the order of the records *)

Lemma sums_permutation data data' :
  Permutation data data' ->
  Spec.n data = Spec.n data' /\ Spec.S data = Spec.S data' /\
  Spec.Q data = Spec.Q data'.
Proof.
  unfold Spec.n, Spec.S, Spec.Q.
  induction 1 as [| r l l' _ IH | r r' l | l l' l'' _ IH1 _ IH2]; simpl.
  - repeat split.
  - destruct IH as (Hn & HS & HQ). rewrite Hn, HS, HQ. repeat split.
  - repeat split; [lia | lra | lra].
  - destruct IH1 as (Hn1 & HS1 & HQ1). destruct IH2 as (Hn2 & HS2 & HQ2).
    repeat split; congruence.
Qed.

(** *** The variance of records that keep their squares *)

Lemma mapper_shaped_kept (r : record R) :
  Exact.mapper_shaped r -> Exact.kept r.
Proof.
  destruct r as [[c v] v2]. unfold Exact.mapper_shaped, Exact.kept,
    Exact.count_positive, Exact.square_kept. simpl.
  intros [Hc Hv]. split; [lia | exact Hv].
Qed.

Lemma count_at_least_length data :
  Forall Exact.kept data -> (Z.of_nat (List.length data) <= Spec.n data)%Z.
Proof.
  unfold Spec.n.
  induction 1 as [| [[c v] v2] rest [Hc _] _ IH].
  - simpl. lia.
  - unfold Exact.count_positive in Hc. simpl in Hc.
    cbn [List.length map fold_right fst]. lia.
Qed.

(** The sum of the squared deviations from any [x], taken with the counts of
    the records, is not negative. *)
Lemma deviation_nonneg data :
  Forall Exact.kept data ->
  forall x : R, 0 <= Spec.Q data - 2 * x * Spec.S data + IZR (Spec.n data) * x * x.
Proof.
  unfold Spec.n, Spec.S, Spec.Q.
  induction 1 as [| [[c v] v2] rest [Hc Hv] _ IH]; intros x.
  - simpl. lra.
  - unfold Exact.count_positive in Hc. unfold Exact.square_kept in Hv.
    simpl in Hc. cbn [map fold_right fst snd]. rewrite plus_IZR. subst v2.
    specialize (IH x).
    assert (Hc1 : 1 <= IZR c) by (apply IZR_le in Hc; exact Hc).
    assert (Hsq : 0 <= (v - x) * (v - x)) by (apply Rle_0_sqr).
    assert (Hcx : 0 <= (IZR c - 1) * (x * x)).
    { apply Rmult_le_pos; [lra | apply Rle_0_sqr]. }
    set (k := IZR (fold_right Z.add 0%Z (map (fun r : record R => fst (fst r)) rest))) in *.
    lra.
Qed.

Lemma variance_nonneg data :
  data <> [] -> Forall Exact.kept data -> 0 <= Spec.variance data.
Proof.
  intros Hne Hk.
  assert (Hn : 0 < IZR (Spec.n data)).
  { apply IZR_lt. pose proof (count_at_least_length Hk) as Hlen.
    destruct data as [| r rest]; [contradiction | simpl in Hlen; lia]. }
  pose proof (deviation_nonneg Hk (Spec.mean data)) as Hd.
  unfold Spec.variance. unfold Spec.mean in *.
  set (k := IZR (Spec.n data)) in *. set (s := Spec.S data) in *.
  set (q := Spec.Q data) in *.
  replace (q / k - (s / k) ^ 2)
    with ((q - 2 * (s / k) * s + k * (s / k) * (s / k)) / k)
    by (field; lra).
  apply Rmult_le_pos; [exact Hd | left; apply Rinv_0_lt_compat; exact Hn].
Qed.

Lemma count_nonzero data :
  data <> [] -> Forall Exact.kept data -> Spec.n data <> 0%Z.
Proof.
  intros Hne Hk. pose proof (count_at_least_length Hk) as Hlen.
  destruct data as [| r rest]; [contradiction | simpl in Hlen; lia].
Qed.

(** In exact arithmetic a non-empty list of records of the shape
    [(1, v, v * v)] has a real standard deviation that is not negative. *)
Lemma exact_stddev_nonneg data :
  data <> [] ->
  Forall Exact.mapper_shaped data ->
  exists mean stddev : R,
    reducer data = Ok (mean, Float stddev) /\ 0 <= stddev.
Proof.
  intros Hne Hshape.
  assert (Hk : Forall Exact.kept data).
  { eapply Forall_impl; [| exact Hshape]. intros r. apply mapper_shaped_kept. }
  exists (Spec.mean data), (R_sqrt.sqrt (Spec.variance data)). split.
  - rewrite reducer_exact.
    destruct (Z.eqb_spec (Spec.n data) 0) as [H0 | _].
    + exfalso. exact (count_nonzero Hne Hk H0).
    + rewrite pow_half_nonneg by (apply variance_nonneg; assumption).
      reflexivity.
  - apply sqrt_pos.
Qed.

(** In exact arithmetic the result does not depend on the order of the
    records. *)
Lemma exact_reducer_order_independent data data' :
  Permutation data data' -> reducer data = reducer data'.
Proof.
  intros Hp. destruct (sums_permutation Hp) as (Hn & HS & HQ).
  rewrite !reducer_exact. unfold Spec.variance, Spec.mean.
  rewrite Hn, HS, HQ. reflexivity.
Qed.

End ExactReducer.

(** ** The map stage, for any float arithmetic *)

Section MapStage.

Context {F : Type} {arith : FloatArith F}.
Variable reader : string -> option F.

(** [json.load] returns exactly for the paths that hold a document. *)
Lemma json_load_document (fs : filesystem F) (path : string) (info : pyobj F) :
  fs path = Some (Document info) -> json_load fs path = Ok info.
Proof. intros H. unfold json_load. rewrite H. reflexivity. Qed.

Lemma json_load_Ok (fs : filesystem F) (path : string) (info : pyobj F) :
  json_load fs path = Ok info -> fs path = Some (Document info).
Proof.
  unfold json_load. destruct (fs path) as [[| | | | | | | e | info'] |];
    intros H; try discriminate H.
  injection H as ->. reflexivity.
Qed.

Lemma json_load_raises (fs : filesystem F) (path : string) :
  (exists e, json_load fs path = Raise e) <->
  (forall info, fs path <> Some (Document info)).
Proof.
  split.
  - intros [e He] info Hfs. rewrite (json_load_document _ _ Hfs) in He.
    discriminate He.
  - intros Hnot. destruct (json_load fs path) as [info | e] eqn:Hload.
    + exfalso. exact (Hnot info (json_load_Ok _ _ Hload)).
    + exists e. reflexivity.
Qed.

(** The body of [mapper], step by step. *)
Lemma mapper_cases (fs : filesystem F) (path : string) :
  mapper reader fs path =
  match json_load fs path with
  | Raise e => Raise e
  | Ok info =>
      match getitem info key with
      | Raise e => Raise e
      | Ok field =>
          match py_float reader field with
          | Raise e => Raise e
          | Ok score =>
              match f_pow2 score with
              | Raise e => Raise e
              | Ok score_squared => Ok [(1%Z, score, score_squared)]
              end
          end
      end
  end.
Proof.
  unfold mapper. destruct (json_load fs path) as [info | e]; [| reflexivity].
  cbn [bind]. destruct (getitem info key) as [field | e]; [| reflexivity].
  cbn [bind]. destruct (py_float reader field) as [score | e]; [| reflexivity].
  cbn [bind]. destruct (f_pow2 score); reflexivity.
Qed.

Lemma mapper_rated (fs : filesystem F) (path : string) (v : F) :
  rated reader fs path v ->
  mapper reader fs path =
  match f_pow2 v with
  | Raise e => Raise e
  | Ok score_squared => Ok [(1%Z, v, score_squared)]
  end.
Proof.
  intros (info & field & Hfs & Hget & Hfloat).
  rewrite mapper_cases, (json_load_document _ _ Hfs), Hget, Hfloat.
  reflexivity.
Qed.

(** A path has at most one rating. *)
Lemma rated_unique (fs : filesystem F) (path : string) (v v' : F) :
  rated reader fs path v -> rated reader fs path v' -> v = v'.
Proof.
  intros (info & field & Hfs & Hget & Hfloat)
         (info' & field' & Hfs' & Hget' & Hfloat').
  rewrite Hfs in Hfs'. injection Hfs' as <-.
  rewrite Hget in Hget'. injection Hget' as <-.
  rewrite Hfloat in Hfloat'. injection Hfloat' as <-. reflexivity.
Qed.

(** What [mapper] does on a path, in full: it stops at the first of its four
    steps that raises, and yields one record when none does. *)
Lemma mapper_steps (fs : filesystem F) (path : string) :
  (exists e, json_load fs path = Raise e /\ mapper reader fs path = Raise e) \/
  (exists info e,
     fs path = Some (Document info) /\ getitem info key = Raise e /\
     mapper reader fs path = Raise e) \/
  (exists info field e,
     fs path = Some (Document info) /\ getitem info key = Ok field /\
     py_float reader field = Raise e /\ mapper reader fs path = Raise e) \/
  (exists v e,
     rated reader fs path v /\ f_pow2 v = Raise e /\
     mapper reader fs path = Raise e) \/
  (exists v p,
     rated reader fs path v /\ f_pow2 v = Ok p /\
     mapper reader fs path = Ok [(1%Z, v, p)]).
Proof.
  rewrite mapper_cases.
  destruct (json_load fs path) as [info | e] eqn:Hload.
  - apply json_load_Ok in Hload.
    destruct (getitem info key) as [field | e] eqn:Hget.
    + destruct (py_float reader field) as [v | e] eqn:Hfloat.
      * assert (Hrated : rated reader fs path v).
        { exists info, field. repeat split; assumption. }
        destruct (f_pow2 v) as [p | e] eqn:Hpow.
        -- do 4 right. exists v, p. repeat split; assumption.
        -- do 3 right. left. exists v, e. repeat split; assumption.
      * do 2 right. left. exists info, field, e. repeat split; assumption.
    + right. left. exists info, e. repeat split; assumption.
  - left. exists e. split; reflexivity.
Qed.

(** The loop keeps three independent sums, each in the order of the data. *)
Lemma fold_step_three_sums (data : list (record F)) : forall a : accumulator F,
  fold_left step data a =
  Acc (fold_left Z.add (map (fun r : record F => fst (fst r)) data) (n a))
      (fold_left f_add (map (fun r : record F => snd (fst r)) data)
         (sum_score a))
      (fold_left f_add (map (fun r : record F => snd r) data)
         (sum_score_squared a)).
Proof.
  induction data as [| [[c v] v2] rest IH]; intros [k s q].
  - reflexivity.
  - simpl fold_left at 1. rewrite IH. reflexivity.
Qed.



(** The exceptions of [obj[key]]. *)
Lemma getitem_raises (info : pyobj F) (k : string) (e : exn) :
  getitem info k = Raise e -> e = KeyError k \/ e = TypeError.
Proof.
  destruct info; simpl;
    try (intros H; injection H as <-; right; reflexivity).
  destruct (dict_get items k); intros H.
  - discriminate H.
  - injection H as <-. left. reflexivity.
Qed.




End MapStage.

(** ** Binary64 arithmetic on one value *)

Section Binary64Arithmetic.

Local Open Scope Z_scope.

(** A valid mantissa has 53 digits, or the least exponent. *)
Lemma bounded_cases (m : positive) (e : Z) :
  bounded prec emax m e = true ->
  e <= 971 /\
  ((Zpos (digits2_pos m) = 53 /\ -1074 < e) \/
   (e = -1074 /\ Zpos (digits2_pos m) <= 53)).
Proof.
  unfold bounded, canonical_mantissa, fexp, emin, prec, emax.
  intros H. apply andb_prop in H. destruct H as [H1 H2].
  apply Z.eqb_eq in H1. apply Z.leb_le in H2. lia.
Qed.

(** Division of a shifted mantissa by the mantissa of 1.0 is exact. *)
Lemma div_eucl_shift (m : positive) (k : Z) :
  0 <= k ->
  Z.div_eucl (Z.shiftl (Zpos m) (52 + k)) 4503599627370496
  = (Z.shiftl (Zpos m) k, 0).
Proof.
  intros Hk.
  pose proof (Z.div_eucl_eq (Z.shiftl (Zpos m) (52 + k)) 4503599627370496) as H.
  pose proof (Z.mod_pos_bound (Z.shiftl (Zpos m) (52 + k)) 4503599627370496) as Hb.
  unfold Z.modulo in Hb.
  destruct (Z.div_eucl (Z.shiftl (Zpos m) (52 + k)) 4503599627370496) as [q r].
  specialize (H ltac:(lia)). specialize (Hb ltac:(lia)).
  rewrite Z.shiftl_mul_pow2 in H by lia.
  rewrite Z.shiftl_mul_pow2 by lia.
  rewrite Z.pow_add_r in H by lia.
  change (2 ^ 52) with 4503599627370496 in H.
  assert (r = 0 /\ q = Zpos m * 2 ^ k) as [-> ->]; [| reflexivity].
  nia.
Qed.

Lemma div_eucl_53 (m : positive) :
  IntDef.Z.div_eucl (IntDef.Z.shiftl (Zpos m) 53) 4503599627370496
  = (Zpos m~0, 0).
Proof. exact (@div_eucl_shift m 1 ltac:(lia)). Qed.

Lemma div_eucl_52 (m : positive) :
  IntDef.Z.div_eucl (IntDef.Z.shiftl (Zpos m) 52) 4503599627370496
  = (Zpos m, 0).
Proof. exact (@div_eucl_shift m 0 ltac:(lia)). Qed.

(** Division by 1.0 returns a finite number bit for bit. *)
Lemma SFdiv_one (s : bool) (m : positive) (e : Z) :
  bounded prec emax m e = true ->
  SFdiv prec emax (S754_finite s m e) (S754_finite false 4503599627370496 (-52))
  = S754_finite s m e.
Proof.
  intros Hb. destruct (@bounded_cases m e Hb) as [Hmax [[Hd He] | [He Hd]]].
  - (* normal *)
    unfold SFdiv, SFdiv_core_binary.
    change (Zdigits2 (Zpos m)) with (Zpos (digits2_pos m)).
    change (Zdigits2 4503599627370496) with 53.
    rewrite Hd.
    replace (Z.min (fexp prec emax (53 + e - (53 + -52))) (e - -52)) with (e - 1)
      by (unfold fexp, emin, prec, emax; lia).
    replace (e - -52 - (e - 1)) with 53 by lia.
    cbv iota beta.
    rewrite div_eucl_53.
    change (new_location 4503599627370496 0) with loc_Exact.
    cbv iota beta.
    unfold binary_round_aux, shr_fexp.
    change (Zdigits2 (Zpos m~0)) with (Zpos (Pos.succ (digits2_pos m))).
    rewrite Pos2Z.inj_succ, Hd.
    replace (fexp prec emax (Z.succ 53 + (e - 1)) - (e - 1)) with 1
      by (unfold fexp, emin, prec, emax; lia).
    cbn [shr iter_pos shr_record_of_loc shr_1 shr_m loc_of_shr_record round_nearest_even orb].
    replace (e - 1 + 1) with e by lia.
    change (Zdigits2 (Zpos m)) with (Zpos (digits2_pos m)). rewrite Hd.
    replace (fexp prec emax (53 + e) - e) with 0
      by (unfold fexp, emin, prec, emax; lia).
    cbn [shr shr_m].
    replace (e <=? emax - prec) with true
      by (symmetry; apply Z.leb_le; unfold emax, prec; lia).
    rewrite xorb_false_r. reflexivity.
  - (* subnormal *)
    subst e.
    unfold SFdiv, SFdiv_core_binary.
    change (Zdigits2 (Zpos m)) with (Zpos (digits2_pos m)).
    change (Zdigits2 4503599627370496) with 53.
    replace (Z.min (fexp prec emax (Z.pos (digits2_pos m) + -1074 - (53 + -52)))
               (-1074 - -52)) with (-1074)
      by (unfold fexp, emin, prec, emax; lia).
    change (-1074 - -52 - -1074) with 52.
    cbv iota beta.
    rewrite div_eucl_52.
    change (new_location 4503599627370496 0) with loc_Exact.
    cbv iota beta.
    unfold binary_round_aux, shr_fexp.
    change (Zdigits2 (Zpos m)) with (Zpos (digits2_pos m)).
    replace (fexp prec emax (Z.pos (digits2_pos m) + -1074) - -1074) with 0
      by (unfold fexp, emin, prec, emax; lia).
    cbn [shr iter_pos shr_record_of_loc shr_1 shr_m loc_of_shr_record round_nearest_even orb].
    change (Zdigits2 (Zpos m)) with (Zpos (digits2_pos m)).
    replace (fexp prec emax (Z.pos (digits2_pos m) + -1074) - -1074) with 0
      by (unfold fexp, emin, prec, emax; lia).
    cbn [shr shr_m].
    change (-1074 <=? emax - prec) with true. cbv iota.
    rewrite xorb_false_r. reflexivity.
Qed.

Local Open Scope float_scope.

Lemma div_one (x : float) : x / 1 = x.
Proof.
  apply Prim2SF_inj. rewrite div_spec. unfold SF64div.
  change (Prim2SF 1) with (S754_finite false 4503599627370496 (-52)).
  pose proof (Prim2SF_valid x) as Hvalid.
  destruct (Prim2SF x) as [s | s | | s m e]; simpl.
  - rewrite xorb_false_r. reflexivity.
  - rewrite xorb_false_r. reflexivity.
  - reflexivity.
  - apply SFdiv_one. exact Hvalid.
Qed.

Lemma SFcompare_refl (x : spec_float) :
  x <> S754_nan -> SFcompare x x = Some Eq.
Proof.
  destruct x as [s | s | | s m e]; intros H; simpl.
  - reflexivity.
  - destruct s; reflexivity.
  - contradiction.
  - rewrite Z.compare_refl.
    assert (Hm : Pos.compare_cont Eq m m = Eq) by (apply Pos.compare_refl).
    rewrite Hm. destruct s; reflexivity.
Qed.

(** A finite float is a zero or a finite number, not NaN nor an infinity. *)
Lemma is_finite_SF (x : float) :
  is_finite x =
  match Prim2SF x with
  | S754_zero _ | S754_finite _ _ _ => true
  | S754_infinity _ | S754_nan => false
  end.
Proof.
  unfold is_finite, is_nan, is_infinity.
  rewrite !FloatAxioms.eqb_spec, abs_spec.
  change (Prim2SF infinity) with (S754_infinity false).
  unfold SFeqb at 1.
  destruct (Prim2SF x) as [s | [|] | | s m e]; try reflexivity.
  rewrite SFcompare_refl by discriminate. reflexivity.
Qed.

Lemma finite_cases (x : float) :
  is_finite x = true ->
  (exists s, Prim2SF x = S754_zero s) \/
  (exists s m e, Prim2SF x = S754_finite s m e).
Proof.
  rewrite is_finite_SF.
  destruct (Prim2SF x) as [s | s | | s m e]; intros H; try discriminate H.
  - left. exists s. reflexivity.
  - right. exists s, m, e. reflexivity.
Qed.

(** A square is never the negative zero. *)
Lemma square_sign (x : spec_float) :
  SFmul prec emax x x <> S754_zero true.
Proof.
  destruct x as [s | s | | s m e]; simpl; try discriminate.
  - destruct s; discriminate.
  - unfold binary_round_aux.
    destruct (shr_fexp _ _ _ _ _) as [mrs' e'].
    destruct (shr_fexp _ _ _ _ _) as [mrs'' e''].
    destruct (shr_m mrs''); try discriminate.
    + destruct s; discriminate.
    + destruct (e'' <=? emax - prec)%Z; discriminate.
Qed.

Lemma add_zero_l (x : float) :
  Prim2SF x <> S754_zero true -> 0 + x = x.
Proof.
  intros H. apply Prim2SF_inj. rewrite add_spec. unfold SF64add.
  change (Prim2SF 0) with (S754_zero false).
  destruct (Prim2SF x) as [s | s | | s m e]; try reflexivity.
  destruct s; [contradiction | reflexivity].
Qed.

Lemma add_zero_square (v : float) : 0 + v * v = v * v.
Proof.
  apply add_zero_l. rewrite mul_spec. apply square_sign.
Qed.

Lemma square_add_zero (v : float) : (0 + v) * (0 + v) = v * v.
Proof.
  apply Prim2SF_inj. rewrite !mul_spec, add_spec. unfold SF64mul, SF64add.
  change (Prim2SF 0) with (S754_zero false).
  destruct (Prim2SF v) as [s | s | | s m e]; try reflexivity.
  destruct s; reflexivity.
Qed.

Lemma sub_diag (x : float) : is_finite x = true -> x - x = 0.
Proof.
  intros H. apply Prim2SF_inj. rewrite sub_spec. unfold SF64sub.
  change (Prim2SF 0) with (S754_zero false).
  destruct (@finite_cases x H) as [[s ->] | (s & m & e & ->)].
  - destruct s; reflexivity.
  - unfold SFsub. rewrite Z.sub_diag. reflexivity.
Qed.

Lemma add_zero_eqb (v : float) : is_nan v = false -> (0 + v =? v) = true.
Proof.
  unfold is_nan. rewrite !FloatAxioms.eqb_spec, add_spec. unfold SF64add, SFeqb.
  change (Prim2SF 0) with (S754_zero false).
  destruct (Prim2SF v) as [s | s | | s m e] eqn:Hv; intros H.
  - destruct s; reflexivity.
  - simpl. destruct s; reflexivity.
  - discriminate H.
  - simpl SFadd. rewrite SFcompare_refl by discriminate. reflexivity.
Qed.

Lemma square_finite (v : float) :
  is_finite (v * v) = true -> is_finite v = true.
Proof.
  rewrite !is_finite_SF, mul_spec. unfold SF64mul.
  destruct (Prim2SF v) as [s | s | | s m e]; simpl; intros H;
    try reflexivity; discriminate H.
Qed.

Lemma finite_not_infinity (x : float) :
  is_finite x = true -> is_infinity x = false.
Proof.
  unfold is_finite. destruct (is_nan x), (is_infinity x); simpl;
    intros H; try reflexivity; discriminate H.
Qed.

Lemma finite_not_nan (x : float) : is_finite x = true -> is_nan x = false.
Proof.
  unfold is_finite. destruct (is_nan x), (is_infinity x); simpl;
    intros H; try reflexivity; discriminate H.
Qed.

Lemma truediv_one (x : float) : truediv x 1 = Ok x.
Proof.
  unfold truediv. cbn [f_of_int f_is_zero f_div Binary64.arith].
  change (Binary64.of_int 1) with (Ok 1). cbn [bind].
  change (is_zero 1) with false. cbv iota. rewrite div_one. reflexivity.
Qed.

(** One record in binary64, for a value whose square is finite. *)
Lemma reducer_single_binary64 (v : float) :
  is_finite (v * v) = true ->
  reducer [(1%Z, v, v * v)] = Ok (0 + v, Float 0).
Proof.
  intros Hsq. unfold reducer. cbn [fold_left step initial n sum_score
    sum_score_squared f_zero f_add Binary64.arith].
  unfold finish. cbn [n sum_score sum_score_squared].
  change (0 + 1)%Z with 1%Z. rewrite !truediv_one. cbn [bind].
  rewrite add_zero_square.
  cbn [f_pow2 f_sub f_pow_half Binary64.arith]. unfold Binary64.pow2,
    Binary64.square_overflows.
  rewrite square_add_zero, (finite_not_infinity _ Hsq), andb_false_r.
  cbn [bind]. rewrite (sub_diag _ Hsq). reflexivity.
Qed.

Lemma pow2_in_range (v : float) :
  Binary64.square_overflows v = false -> f_pow2 v = Ok (v * v).
Proof.
  intros H. simpl. unfold Binary64.pow2. rewrite H. reflexivity.
Qed.

(** *** Signs *)

Lemma sqrt_not_negative (x : float) : (PrimFloat.sqrt x <? 0) = false.
Proof.
  rewrite ltb_spec, sqrt_spec.
  change (Prim2SF 0) with (S754_zero false).
  unfold SF64sqrt, SFsqrt, SFltb.
  destruct (Prim2SF x) as [s | [|] | | [|] m e]; try reflexivity.
  destruct (SFsqrt_core_binary prec emax (Z.pos m) e) as [[mz ez] lz].
  unfold binary_round_aux.
  destruct (shr_fexp _ _ _ _ _) as [mrs' e'].
  destruct (shr_fexp _ _ _ _ _) as [mrs'' e''].
  destruct (shr_m mrs''); try reflexivity.
  destruct (e'' <=? emax - prec)%Z; reflexivity.
Qed.

Lemma nan_not_less (x y : float) : is_nan x = true -> (x <? y) = false.
Proof.
  unfold is_nan. rewrite FloatAxioms.eqb_spec, ltb_spec. unfold SFeqb, SFltb.
  destruct (Prim2SF x) as [s | s | | s m e] eqn:Hx; intros H;
    try reflexivity;
    rewrite SFcompare_refl in H by discriminate; discriminate H.
Qed.

Lemma abs_not_negative (x : float) : (abs x <? 0) = false.
Proof.
  rewrite ltb_spec, abs_spec. change (Prim2SF 0) with (S754_zero false).
  destruct (Prim2SF x) as [s | s | | s m e]; reflexivity.
Qed.

(** A float that is not NaN, not a zero and not below zero is above zero;
    and the opposite of one below zero is above zero. *)
Lemma positive_base (x : float) :
  is_nan x = false -> is_zero x = false -> (x <? 0) = false ->
  (0 <? x) = true.
Proof.
  unfold is_nan, is_zero.
  rewrite !FloatAxioms.eqb_spec, !ltb_spec.
  change (Prim2SF 0) with (S754_zero false).
  destruct (Prim2SF x) as [s | [|] | | [|] m e]; simpl;
    intros H1 H2 H3; try reflexivity; discriminate.
Qed.

Lemma opp_positive_base (x : float) :
  (x <? 0) = true -> (0 <? - x) = true.
Proof.
  rewrite !ltb_spec, opp_spec.
  change (Prim2SF 0) with (S754_zero false).
  destruct (Prim2SF x) as [s | [|] | | [|] m e]; simpl;
    intros H; try reflexivity; discriminate.
Qed.

(** *** The absolute value and the square *)

Lemma eqb_one (x : float) : (x =? 1) = true -> x = 1.
Proof.
  rewrite FloatAxioms.eqb_spec. intros H. apply Prim2SF_inj. revert H.
  change (Prim2SF 1) with (S754_finite false 4503599627370496 (-52)).
  unfold SFeqb, SFcompare.
  destruct (Prim2SF x) as [s | [|] | | [|] k e]; try discriminate.
  destruct (Z.compare_spec e (-52)) as [-> | _ | _]; try discriminate.
  destruct (Pos.compare_cont Eq k 4503599627370496) eqn:Hk; try discriminate.
  intros _. apply Pos.compare_eq in Hk. subst k. reflexivity.
Qed.

Lemma eqb_infinity (x : float) : (x =? infinity) = true -> x = infinity.
Proof.
  rewrite FloatAxioms.eqb_spec. intros H. apply Prim2SF_inj. revert H.
  change (Prim2SF infinity) with (S754_infinity false).
  unfold SFeqb, SFcompare.
  destruct (Prim2SF x) as [s | [|] | | [|] k e]; try discriminate.
  reflexivity.
Qed.

Lemma abs_infinity (x : float) : is_infinity x = true -> abs x = infinity.
Proof. unfold is_infinity. apply eqb_infinity. Qed.

Lemma abs_mul_abs (v : float) : abs v * abs v = v * v.
Proof.
  apply Prim2SF_inj. rewrite !mul_spec, abs_spec. unfold SF64mul.
  destruct (Prim2SF v) as [s | s | | s k e]; try reflexivity;
    destruct s; reflexivity.
Qed.

Lemma zero_square (v : float) : is_zero v = true -> v * v = 0.
Proof.
  unfold is_zero. rewrite FloatAxioms.eqb_spec. intros H.
  apply Prim2SF_inj. rewrite mul_spec. revert H.
  change (Prim2SF 0) with (S754_zero false). unfold SF64mul, SFeqb, SFcompare.
  destruct (Prim2SF v) as [s | [|] | | [|] k e]; try discriminate.
  destruct s; reflexivity.
Qed.

(** The base that [float.__pow__] hands to [pow] for an even exponent. *)
Lemma base_abs (v : float) :
  is_zero v = false -> (if v <? 0 then - v else v) = abs v.
Proof.
  unfold is_zero. rewrite FloatAxioms.eqb_spec. intros Hzero.
  destruct (v <? 0) eqn:Hneg; apply Prim2SF_inj;
    rewrite ?opp_spec, abs_spec; revert Hzero Hneg; rewrite ltb_spec;
    change (Prim2SF 0) with (S754_zero false);
    unfold SFeqb, SFltb, SFcompare;
    destruct (Prim2SF v) as [s | [|] | | [|] k e];
    try discriminate; reflexivity.
Qed.

(** *** Addition in either order *)

Lemma SFadd_comm (x y : spec_float) :
  SFadd prec emax x y = SFadd prec emax y x.
Proof.
  destruct x as [sx | sx | | sx mx ex], y as [sy | sy | | sy my ey];
    try reflexivity.
  - destruct sx, sy; reflexivity.
  - destruct sx, sy; reflexivity.
  - unfold SFadd. rewrite (Z.min_comm ey ex).
    rewrite (Z.add_comm (cond_Zopp sy _)). reflexivity.
Qed.

Lemma add_comm (x y : float) : x + y = y + x.
Proof.
  apply Prim2SF_inj. rewrite !add_spec. apply SFadd_comm.
Qed.


(** *** NaN *)

Lemma is_nan_eq (x : float) : is_nan x = true -> x = nan.
Proof.
  intros H. apply Prim2SF_inj. change (Prim2SF nan) with S754_nan.
  revert H. unfold is_nan. rewrite FloatAxioms.eqb_spec. unfold SFeqb.
  destruct (Prim2SF x) as [s | s | | s m e]; intros H;
    try reflexivity;
    rewrite SFcompare_refl in H by discriminate; discriminate H.
Qed.

Lemma add_nan_r (x : float) : x + nan = nan.
Proof.
  apply Prim2SF_inj. rewrite add_spec. change (Prim2SF nan) with S754_nan.
  unfold SF64add. destruct (Prim2SF x); reflexivity.
Qed.

Lemma div_nan_l (d : float) : nan / d = nan.
Proof.
  apply Prim2SF_inj. rewrite div_spec. change (Prim2SF nan) with S754_nan.
  reflexivity.
Qed.

Lemma sub_nan_r (x : float) : x - nan = nan.
Proof.
  apply Prim2SF_inj. rewrite sub_spec. change (Prim2SF nan) with S754_nan.
  unfold SF64sub. destruct (Prim2SF x); reflexivity.
Qed.

End Binary64Arithmetic.

(** ** The power operator over any C library *)

Section CPythonPower.

Local Open Scope float_scope.

Variable m : CPython.libm.

Lemma negative_cases (x : float) :
  (x <? 0) = true -> is_nan x = false /\ is_zero x = false.
Proof.
  unfold is_nan, is_zero. rewrite !FloatAxioms.eqb_spec, ltb_spec.
  change (Prim2SF 0) with (S754_zero false).
  destruct (Prim2SF x) as [s | [|] | | [|] k e]; intros H;
    try discriminate H.
  - split; reflexivity.
  - split; [| reflexivity].
    unfold SFeqb. rewrite SFcompare_refl by discriminate. reflexivity.
Qed.

(** [pow] is called on a positive base only, and a range error is the one
    error it can then report. *)
Lemma checked_pow_raises (iv iw : float) (e : exn) :
  CPython.no_domain_error m ->
  (0 <? iv) = true ->
  CPython.checked_pow m iv iw = Raise e -> e = OverflowError.
Proof.
  intros Hlib Hpos. unfold CPython.checked_pow.
  destruct (Hlib iv iw Hpos) as [-> | ->]; cbn [CPython.adjust_erange1].
  - destruct (is_infinity _); intros H.
    + injection H as <-. reflexivity.
    + discriminate H.
  - destruct (is_zero _); intros H.
    + discriminate H.
    + injection H as <-. reflexivity.
Qed.

Lemma checked_pow_value (iv iw x : float) :
  CPython.checked_pow m iv iw = Ok x -> x = CPython.libm_pow m iv iw.
Proof.
  unfold CPython.checked_pow.
  destruct (CPython.adjust_erange1 _ _); intros H; try discriminate H.
  injection H as <-. reflexivity.
Qed.

Lemma pow2_raises (iv : float) (e : exn) :
  CPython.no_domain_error m ->
  CPython.pow2 m iv = Raise e -> e = OverflowError.
Proof.
  intros Hlib. unfold CPython.pow2.
  destruct (is_nan iv) eqn:Hnan; [discriminate |].
  destruct (is_infinity iv); [discriminate |].
  destruct (is_zero iv) eqn:Hzero; [discriminate |].
  destruct (iv <? 0) eqn:Hneg.
  - destruct (- iv =? 1); [discriminate |].
    apply checked_pow_raises; [exact Hlib |].
    apply opp_positive_base. exact Hneg.
  - destruct (iv =? 1); [discriminate |].
    apply checked_pow_raises; [exact Hlib |].
    apply positive_base; assumption.
Qed.

(** [iv ** 2] is the product [iv * iv] wherever the C library rounds
    [pow] correctly at the exponent 2. *)
Lemma pow2_is_square (iv p : float) :
  CPython.pow2 m iv = Ok p ->
  CPython.libm_pow m (abs iv) 2 = abs iv * abs iv ->
  p = iv * iv.
Proof.
  unfold CPython.pow2. intros Hpow Hlib.
  destruct (is_nan iv) eqn:Hnan.
  { injection Hpow as <-. rewrite (@is_nan_eq iv Hnan). reflexivity. }
  destruct (is_infinity iv) eqn:Hinf.
  { injection Hpow as <-. rewrite <- abs_mul_abs, (@abs_infinity iv Hinf).
    reflexivity. }
  destruct (is_zero iv) eqn:Hzero.
  { injection Hpow as <-. symmetry. apply zero_square. exact Hzero. }
  cbv zeta in Hpow. rewrite (@base_abs iv Hzero) in Hpow.
  rewrite <- abs_mul_abs.
  destruct (abs iv =? 1) eqn:Hone.
  - injection Hpow as <-. rewrite (@eqb_one (abs iv) Hone). reflexivity.
  - rewrite (@checked_pow_value (abs iv) 2 p Hpow). exact Hlib.
Qed.

(** The complex power returns a complex number or raises one of two
    exceptions. *)
Lemma complex_pow_raises (iv : float) (e : exn) :
  CPython.complex_pow m iv = Raise e ->
  e = ZeroDivisionError \/ e = OverflowError.
Proof.
  unfold CPython.complex_pow. destruct (CPython.c_pow m iv) as [re im].
  destruct (CPython.adjust_erange2 _ _ _); intros H; try discriminate H;
    injection H as <-; [right | left]; reflexivity.
Qed.

Lemma complex_pow_complex (iv : float) (s : number float) :
  CPython.complex_pow m iv = Ok s -> exists re im, s = Complex re im.
Proof.
  unfold CPython.complex_pow. destruct (CPython.c_pow m iv) as [re im].
  destruct (CPython.adjust_erange2 _ _ _); intros H; try discriminate H;
    injection H as <-; exists re, im; reflexivity.
Qed.

(** A negative finite base goes to the complex power. *)
Lemma pow_half_negative_base (iv : float) :
  (iv <? 0) = true -> is_infinity iv = false ->
  CPython.pow_half m iv = CPython.complex_pow m iv.
Proof.
  intros Hneg Hinf. destruct (negative_cases Hneg) as [Hnan Hzero].
  unfold CPython.pow_half. rewrite Hnan, Hinf, Hzero, Hneg. reflexivity.
Qed.


(** A real value of [iv ** 0.5] is not negative. *)
Lemma cpython_pow_half_not_negative (iv s : float) :
  CPython.pow_not_negative m ->
  CPython.pow_half m iv = Ok (Float s) -> (s <? 0) = false.
Proof.
  intros Hlib. unfold CPython.pow_half.
  destruct (is_nan iv) eqn:Hnan.
  { intros H. injection H as <-. apply nan_not_less. exact Hnan. }
  destruct (is_infinity iv).
  { intros H. injection H as <-. apply abs_not_negative. }
  destruct (is_zero iv) eqn:Hzero.
  { intros H. injection H as <-. reflexivity. }
  destruct (iv <? 0) eqn:Hneg.
  { intros H. destruct (@complex_pow_complex iv (Float s) H) as (re & im & Hc).
    discriminate Hc. }
  destruct (iv =? 1).
  { intros H. injection H as <-. reflexivity. }
  destruct (CPython.checked_pow m iv 0.5) as [x | e'] eqn:Hpow;
    cbn [bind]; intros H; [| discriminate H].
  injection H as <-. rewrite (@checked_pow_value iv 0.5 x Hpow).
  apply Hlib. apply positive_base; assumption.
Qed.

End CPythonPower.

(** The C library of the examples has the two properties. *)
Lemma rounded_no_domain_error : CPython.no_domain_error CPython.rounded.
Proof. intros x y _. left. reflexivity. Qed.

Lemma rounded_pow_not_negative : CPython.pow_not_negative CPython.rounded.
Proof.
  intros x y Hx. cbn [CPython.libm_pow CPython.rounded].
  destruct (y =? 2)%float.
  - rewrite ltb_spec, mul_spec. change (Prim2SF 0) with (S754_zero false).
    revert Hx. rewrite ltb_spec. change (Prim2SF 0) with (S754_zero false).
    unfold SF64mul.
    destruct (Prim2SF x) as [s | [|] | | [|] k e]; simpl; intros H;
      try discriminate H; try reflexivity.
    unfold SFltb, binary_round_aux.
    destruct (shr_fexp _ _ _ _ _) as [mrs' e'].
    destruct (shr_fexp _ _ _ _ _) as [mrs'' e''].
    destruct (shr_m mrs''); try reflexivity.
    destruct (e'' <=? emax - prec)%Z; reflexivity.
  - apply sqrt_not_negative.
Qed.

(** ** The reduce stage in binary64 *)

Section ReduceStage.

Local Open Scope float_scope.

Variable m : CPython.libm.


(** The loop of [reducer] computes the three sums of the specification. *)
Lemma fold_step_spec64 (data : list (record float)) :
  fold_left (step (arith := CPython.arith m)) data (initial (arith := CPython.arith m))
  = Acc (Spec64.n data) (Spec64.S data) (Spec64.Q data).
Proof. rewrite fold_step_three_sums. reflexivity. Qed.

Lemma truediv_count (x : float) (data : list (record float)) :
  truediv (arith := CPython.arith m) x (Spec64.n data) =
  if is_infinity (Spec64.count data) then Raise OverflowError
  else if is_zero (Spec64.count data) then Raise ZeroDivisionError
  else Ok (x / Spec64.count data).
Proof.
  unfold truediv. cbn [f_of_int f_is_zero f_div CPython.arith].
  unfold Binary64.of_int. fold (Spec64.count data).
  destruct (is_infinity (Spec64.count data)); [reflexivity |].
  cbn [bind]. destruct (is_zero (Spec64.count data)); reflexivity.
Qed.

(** [reducer], line by line, on the sums of the specification. *)
Lemma reducer_cases (data : list (record float)) :
  reducer (arith := CPython.arith m) data =
  if is_infinity (Spec64.count data) then Raise OverflowError
  else if is_zero (Spec64.count data) then Raise ZeroDivisionError
  else
    squared_mean <- CPython.pow2 m (Spec64.mean data) ;;
    stddev <- CPython.pow_half m
                (Spec64.mean_of_squares data - squared_mean) ;;
    Ok (Spec64.mean data, stddev).
Proof.
  unfold reducer. rewrite fold_step_spec64. unfold finish.
  cbn [n sum_score sum_score_squared]. rewrite !truediv_count.
  destruct (is_infinity (Spec64.count data)); [reflexivity |].
  destruct (is_zero (Spec64.count data)); reflexivity.
Qed.


End ReduceStage.

Section ReduceStageClaims.

Local Open Scope float_scope.

(** C1, as the code has it: on every list of records [reducer] computes the
    algorithm of the specification in binary64 with Python's operators. With
    [n], [S] and [Q] the three sums in the order of the records, it raises
    [ZeroDivisionError] when [float(n)] is zero ([OverflowError] when [n] is
    beyond the floats) and otherwise computes [mean = S / n] exactly as
    specified, then [mean ** 2] and [(Q / n - mean ** 2) ** 0.5] with the
    power operator, and returns the pair of the mean and that power, or
    raises what the power raises. It returns the pair of the specification,
    [(S / n, sqrt (Q / n - mean * mean))], whenever the two powers are the
    rounded product and the rounded square root. *)
Theorem reducer_refines_spec (m : CPython.libm)
    (data : list (record float)) :
  reducer (arith := CPython.arith m) data =
    (if is_infinity (Spec64.count data) then Raise OverflowError
     else if is_zero (Spec64.count data) then Raise ZeroDivisionError
     else
       squared_mean <- CPython.pow2 m (Spec64.mean data) ;;
       stddev <- CPython.pow_half m
                   (Spec64.mean_of_squares data - squared_mean) ;;
       Ok (Spec64.mean data, stddev)) /\
  (is_infinity (Spec64.count data) = false ->
   is_zero (Spec64.count data) = false ->
   CPython.pow2 m (Spec64.mean data)
   = Ok (Spec64.mean data * Spec64.mean data) ->
   CPython.pow_half m (Spec64.variance data)
   = Ok (Float (Spec64.stddev data)) ->
   reducer (arith := CPython.arith m) data
   = Ok (Spec64.mean data, Float (Spec64.stddev data))).
Proof.
  split.
  - apply reducer_cases.
  - intros Hinf Hzero Hsquare Hroot.
    rewrite reducer_cases, Hinf, Hzero, Hsquare. cbn [bind].
    fold (Spec64.variance data). rewrite Hroot. reflexivity.
Qed.

Lemma reducer_refines_spec_witness :
  reducer (arith := CPython.arith CPython.rounded)
    [(1%Z, 2, 4); (1%Z, 4, 16)]
  = Ok (Spec64.mean [(1%Z, 2, 4); (1%Z, 4, 16)],
        Float (Spec64.stddev [(1%Z, 2, 4); (1%Z, 4, 16)])).
Proof.
  apply (proj2 (reducer_refines_spec CPython.rounded
                  [(1%Z, 2, 4); (1%Z, 4, 16)])).
  - vm_compute. reflexivity.
  - vm_compute. reflexivity.
  - vm_compute. reflexivity.
  - vm_compute. reflexivity.
Defined.

(** C3, as the code has it: when the variance that [reducer] computes is
    negative and finite, [reducer] neither clamps it nor raises a domain
    error: the standard deviation is the complex power of the variance, so
    that [reducer] returns a complex number whenever it returns, and the
    complex power can raise nothing but [ZeroDivisionError] and
    [OverflowError]. When the variance is the negative infinity, the standard
    deviation is the positive infinity, a real number. *)
Theorem negative_variance_gives_complex (m : CPython.libm) :
  (forall (data : list (record float)) (squared_mean : float),
     is_infinity (Spec64.count data) = false ->
     is_zero (Spec64.count data) = false ->
     CPython.pow2 m (Spec64.mean data) = Ok squared_mean ->
     (Spec64.mean_of_squares data - squared_mean <? 0) = true ->
     is_infinity (Spec64.mean_of_squares data - squared_mean) = false ->
     reducer (arith := CPython.arith m) data
     = (stddev <- CPython.complex_pow m
                    (Spec64.mean_of_squares data - squared_mean) ;;
        Ok (Spec64.mean data, stddev)) /\
     (forall (mean : float) (stddev : number float),
        reducer (arith := CPython.arith m) data = Ok (mean, stddev) ->
        exists re im : float, stddev = Complex re im) /\
     (forall e : exn,
        reducer (arith := CPython.arith m) data = Raise e ->
        e = ZeroDivisionError \/ e = OverflowError)) /\
  (forall (data : list (record float)) (squared_mean : float),
     is_infinity (Spec64.count data) = false ->
     is_zero (Spec64.count data) = false ->
     CPython.pow2 m (Spec64.mean data) = Ok squared_mean ->
     Spec64.mean_of_squares data - squared_mean = neg_infinity ->
     reducer (arith := CPython.arith m) data
     = Ok (Spec64.mean data, Float infinity)).
Proof.
  split.
  - intros data squared_mean Hinf Hzero Hsquare Hneg Hfinite.
    assert (Hred : reducer (arith := CPython.arith m) data
                   = (stddev <- CPython.complex_pow m
                                  (Spec64.mean_of_squares data - squared_mean) ;;
                      Ok (Spec64.mean data, stddev))).
    { rewrite reducer_cases, Hinf, Hzero, Hsquare. cbn [bind].
      rewrite (pow_half_negative_base m Hneg Hfinite). reflexivity. }
    split; [exact Hred | split].
    + intros mean stddev. rewrite Hred.
      destruct (CPython.complex_pow m _) as [s | e] eqn:Hpow; cbn [bind];
        intros H; [| discriminate H].
      injection H as _ <-. exact (@complex_pow_complex m _ s Hpow).
    + intros e. rewrite Hred.
      destruct (CPython.complex_pow m _) as [s | e'] eqn:Hpow; cbn [bind];
        intros H; [discriminate H |].
      injection H as <-. exact (@complex_pow_raises m _ e' Hpow).
  - intros data squared_mean Hinf Hzero Hsquare Hvar.
    rewrite reducer_cases, Hinf, Hzero, Hsquare. cbn [bind].
    rewrite Hvar. reflexivity.
Qed.

Lemma negative_variance_gives_complex_witness :
  exists re im : float,
    reducer (arith := CPython.arith CPython.rounded) Examples.three_tenths
    = Ok (Spec64.mean Examples.three_tenths, Complex re im).
Proof.
  destruct (proj1 (negative_variance_gives_complex CPython.rounded)
              Examples.three_tenths
              (Spec64.mean Examples.three_tenths
               * Spec64.mean Examples.three_tenths))
    as (Hred & _ & _).
  - vm_compute. reflexivity.
  - vm_compute. reflexivity.
  - vm_compute. reflexivity.
  - vm_compute. reflexivity.
  - vm_compute. reflexivity.
  - rewrite Hred. eexists. eexists. vm_compute. reflexivity.
Defined.

(** C4, as the code has it: over a C library whose [pow] returns no negative
    number for a positive base, a real standard deviation that [reducer]
    returns is never less than zero (it can be NaN). That the standard
    deviation is real does not hold for every valid input. *)
Theorem real_stddev_not_negative (m : CPython.libm)
    (data : list (record float)) (mean stddev : float) :
  CPython.pow_not_negative m ->
  reducer (arith := CPython.arith m) data = Ok (mean, Float stddev) ->
  (stddev <? 0) = false.
Proof.
  intros Hlib. rewrite reducer_cases.
  destruct (is_infinity (Spec64.count data)); [discriminate |].
  destruct (is_zero (Spec64.count data)); [discriminate |].
  destruct (CPython.pow2 m _) as [squared_mean | e]; cbn [bind];
    [| discriminate].
  destruct (CPython.pow_half m _) as [s | e] eqn:Hpow; cbn [bind];
    [| discriminate].
  intros H. injection H as _ ->.
  exact (@cpython_pow_half_not_negative m _ stddev Hlib Hpow).
Qed.

Lemma real_stddev_not_negative_witness :
  (1 <? 0) = false.
Proof.
  apply (@real_stddev_not_negative CPython.rounded
           [(1%Z, 2, 4); (1%Z, 4, 16)] 3 1).
  - exact rounded_pow_not_negative.
  - vm_compute. reflexivity.
Defined.

(** C4 as stated fails: three valid documents rated 5.4 give a variance that
    rounding makes negative, and the standard deviation that the two stages
    return is a complex number, not a real number that is zero or more. *)
Lemma valid_documents_complex_stddev :
  pipeline Binary64.read_digits
    (Binary64.directory
       [Examples.rating; Examples.rating; Examples.rating])
    (Binary64.names [Examples.rating; Examples.rating; Examples.rating])
  = Ok (0x1.599999999999bp+2,
        Complex 0x1.8f5a0be038ed7p-78 0x1.6a09e667f3bcdp-24).
Proof. vm_compute. reflexivity. Qed.







End ReduceStageClaims.

(** ** The map stage in binary64 *)

Section MapStageClaims.

Local Open Scope string_scope.
Local Open Scope float_scope.

(** C6, as the code has it: for every document that exists, parses and whose
    rating coerces to a float [v], [mapper] evaluates [v ** 2]; when the
    power returns [p] it emits exactly one record, [(1, v, p)], and when the
    power raises, [mapper] raises the same exception and emits nothing.
    Every record it emits has the count 1, the rating of the document as its
    value and the power [value ** 2] as its squared value; the power is the
    float product [value * value] wherever the C library rounds [pow]
    correctly at the absolute value of the rating and the exponent 2. *)
Theorem mapper_emits_one_record (m : CPython.libm)
    (reader : string -> option float) (fs : filesystem float)
    (path : string) :
  (forall v p : float,
     rated (arith := CPython.arith m) reader fs path v ->
     CPython.pow2 m v = Ok p ->
     mapper (arith := CPython.arith m) reader fs path = Ok [(1%Z, v, p)]) /\
  (forall (v : float) (e : exn),
     rated (arith := CPython.arith m) reader fs path v ->
     CPython.pow2 m v = Raise e ->
     mapper (arith := CPython.arith m) reader fs path = Raise e) /\
  (forall records : list (record float),
     mapper (arith := CPython.arith m) reader fs path = Ok records ->
     exists v p : float,
       rated (arith := CPython.arith m) reader fs path v /\
       CPython.pow2 m v = Ok p /\
       records = [(1%Z, v, p)]) /\
  (forall v p : float,
     CPython.pow2 m v = Ok p ->
     CPython.libm_pow m (abs v) 2 = abs v * abs v ->
     p = v * v).
Proof.
  split; [| split; [| split]].
  - intros v p Hrated Hpow. rewrite (mapper_rated Hrated).
    cbn [f_pow2 CPython.arith]. rewrite Hpow. reflexivity.
  - intros v e Hrated Hpow. rewrite (mapper_rated Hrated).
    cbn [f_pow2 CPython.arith]. rewrite Hpow. reflexivity.
  - intros records Hok.
    destruct (mapper_steps (arith := CPython.arith m) reader fs path)
      as [(e & _ & H) | [(info & e & _ & _ & H) |
          [(info & field & e & _ & _ & _ & H) |
           [(v & e & _ & _ & H) | (v & p & Hrated & Hpow & H)]]]];
      rewrite H in Hok; try discriminate Hok.
    injection Hok as <-. exists v, p. repeat split; assumption.
  - intros v p. apply pow2_is_square.
Qed.

Lemma mapper_emits_one_record_witness :
  mapper (arith := CPython.arith CPython.rounded) Binary64.read_digits
    (Binary64.directory [7.5]) "0.json"
  = Ok [(1%Z, 7.5, 56.25)].
Proof.
  apply (proj1 (mapper_emits_one_record CPython.rounded Binary64.read_digits
                  (Binary64.directory [7.5]) "0.json") 7.5 56.25).
  - exists (PyDict [("movieIMDbRating"%string, PyFloat 7.5)]), (PyFloat 7.5).
    split; [| split]; reflexivity.
  - vm_compute. reflexivity.
Defined.

(** C6 as stated fails: the document exists, parses, and its rating coerces
    to the float 1e200, yet [mapper] emits no record; for the rating [NaN]
    the third component of the record does not compare equal to
    [value * value]; and for the rating 2.759, over a C library whose [pow]
    is one unit in the last place off the rounded product there, neither
    does it. *)
Lemma mapper_overflow_emits_nothing :
  Binary64.directory [Binary64.huge] "0.json"
  = Some (Document (PyDict [("movieIMDbRating"%string, PyFloat Binary64.huge)])) /\
  py_float Binary64.read_digits (PyFloat Binary64.huge) = Ok Binary64.huge /\
  mapper Binary64.read_digits (Binary64.directory [Binary64.huge]) "0.json"
  = Raise OverflowError /\
  mapper Binary64.read_digits (Binary64.directory [nan]) "0.json"
  = Ok [(1%Z, nan, nan)] /\
  (nan =? nan * nan) = false /\
  mapper (arith := CPython.arith Examples.off_by_one) Binary64.read_digits
    (Binary64.directory [Examples.odd_rating]) "0.json"
  = Ok [(1%Z, Examples.odd_rating, Examples.odd_square)] /\
  (Examples.odd_square =? Examples.odd_rating * Examples.odd_rating) = false.
Proof.
  repeat split; vm_compute; reflexivity.
Qed.

(** C8, as the code has it: [mapper] fails exactly when [open] or
    [json.load] fails on the path, or the document has no value under the
    key, or [float] rejects the value, or the power [score ** 2] raises; on
    every other path it yields one record, and nothing in between. *)
Theorem mapper_fails_iff (m : CPython.libm)
    (reader : string -> option float) (fs : filesystem float)
    (path : string) :
  ((exists e, mapper (arith := CPython.arith m) reader fs path = Raise e) <->
   ((exists e, json_load fs path = Raise e) \/
    (exists info e, fs path = Some (Document info) /\
                    getitem info key = Raise e) \/
    (exists info field e,
       fs path = Some (Document info) /\
       getitem info key = Ok field /\
       py_float (arith := CPython.arith m) reader field = Raise e) \/
    (exists v e, rated (arith := CPython.arith m) reader fs path v /\
                 CPython.pow2 m v = Raise e))) /\
  ((exists e, mapper (arith := CPython.arith m) reader fs path = Raise e) \/
   (exists v p : float,
      rated (arith := CPython.arith m) reader fs path v /\
      CPython.pow2 m v = Ok p /\
      mapper (arith := CPython.arith m) reader fs path = Ok [(1%Z, v, p)])).
Proof.
  destruct (mapper_steps (arith := CPython.arith m) reader fs path)
    as [(e & Hload & H) | [(info & e & Hfs & Hget & H) |
        [(info & field & e & Hfs & Hget & Hfloat & H) |
         [(v & e & Hrated & Hpow & H) | (v & p & Hrated & Hpow & H)]]]].
  - split; [split |]; eauto.
  - split; [split |]; eauto 8.
  - split; [split |]; eauto 10.
  - split; [split |]; eauto 10.
  - split; [split |]; [| | eauto 8].
    + intros [e He]. rewrite H in He. discriminate He.
    + destruct Hrated as (info & field & Hfs & Hget & Hfloat).
      intros [[e Hload] | [(info' & e & Hfs' & Hget') |
        [(info' & field' & e & Hfs' & Hget' & Hfloat') |
         (v' & e & Hrated' & Hpow')]]].
      * unfold json_load in Hload. rewrite Hfs in Hload. discriminate Hload.
      * rewrite Hfs in Hfs'. injection Hfs' as <-.
        rewrite Hget in Hget'. discriminate Hget'.
      * rewrite Hfs in Hfs'. injection Hfs' as <-.
        rewrite Hget in Hget'. injection Hget' as <-.
        rewrite Hfloat in Hfloat'. discriminate Hfloat'.
      * assert (Hv : v = v').
        { eapply rated_unique; [| exact Hrated'].
          exists info, field. repeat split; assumption. }
        subst v'. cbn [f_pow2 CPython.arith] in Hpow.
        rewrite Hpow in Hpow'. discriminate Hpow'.
Qed.

Lemma mapper_fails_iff_witness :
  exists e,
    mapper (arith := CPython.arith CPython.rounded) Binary64.read_digits
      Binary64.mixed "b.json" = Raise e.
Proof.
  apply (proj2 (proj1 (mapper_fails_iff CPython.rounded Binary64.read_digits
                         Binary64.mixed "b.json"))).
  right. left.
  exists (PyDict [("title"%string, PyStr "Alien")]), (KeyError key).
  split; reflexivity.
Defined.

(** C8 as stated fails: [mapper] raises on a file that exists, is JSON, has
    the field, and whose rating [float] accepts. *)
Lemma mapper_fails_outside_four_causes :
  raises (mapper Binary64.read_digits (Binary64.directory [Binary64.huge])
            "0.json") = true /\
  exists info field v,
    Binary64.directory [Binary64.huge] "0.json" = Some (Document info) /\
    getitem info key = Ok field /\
    py_float Binary64.read_digits field = Ok v.
Proof.
  split.
  - vm_compute. reflexivity.
  - exists (PyDict [("movieIMDbRating"%string, PyFloat Binary64.huge)]),
      (PyFloat Binary64.huge), Binary64.huge.
    split; [| split]; vm_compute; reflexivity.
Qed.

End MapStageClaims.

(** ** The two stages together *)

Section Pipeline.

Local Open Scope string_scope.

(** One document in exact arithmetic: the mean is its value and the
    standard deviation is zero. *)
Lemma reducer_single (v : R) :
  reducer [(1%Z, v, (v * v)%R)] = Ok (v, Float 0%R).
Proof.
  assert (Hm : Spec.mean [(1%Z, v, (v * v)%R)] = v).
  { unfold Spec.mean, Spec.S, Spec.n. simpl. field. }
  assert (Hv : Spec.variance [(1%Z, v, (v * v)%R)] = 0%R).
  { unfold Spec.variance. rewrite Hm. unfold Spec.Q, Spec.n. simpl. field. }
  rewrite reducer_exact, Hm, Hv. simpl.
  rewrite pow_half_nonneg by lra. rewrite sqrt_0. reflexivity.
Qed.

(** C7, as the code has it: on the eight documents rated
    2, 4, 4, 4, 5, 5, 7, 9 the two stages return the mean 5.0 and the standard
    deviation 2.0 in binary64; on a single document whose value [v] has a
    finite square they return, in binary64, a mean equal to [v] and the
    standard deviation 0.0; and in exact arithmetic they return the mean [v]
    and the standard deviation 0 for every [v]. *)
Theorem textbook_and_single_document :
  pipeline Binary64.read_digits (Binary64.directory Binary64.textbook)
    (Binary64.names Binary64.textbook)
  = Ok (5%float, Float 2%float) /\
  (forall (reader : string -> option float) (fs : filesystem float)
          (path : string) (info field : pyobj float) (v : float),
     fs path = Some (Document info) ->
     getitem info key = Ok field ->
     py_float reader field = Ok v ->
     is_finite (v * v) = true ->
     exists mean : float,
       pipeline reader fs [path] = Ok (mean, Float 0%float) /\
       (mean =? v)%float = true) /\
  (forall (reader : string -> option R) (fs : filesystem R) (path : string)
          (info field : pyobj R) (v : R),
     fs path = Some (Document info) ->
     getitem info key = Ok field ->
     py_float reader field = Ok v ->
     pipeline reader fs [path] = Ok (v, Float 0%R)).
Proof.
  split; [| split].
  - vm_compute. reflexivity.
  - intros reader fs path info field v Hfs Hget Hfloat Hsq.
    exists (0 + v)%float. split.
    + unfold pipeline. simpl map. simpl collect.
      rewrite mapper_cases. unfold json_load. rewrite Hfs, Hget, Hfloat.
      rewrite pow2_in_range.
      * simpl bind. simpl List.concat. apply reducer_single_binary64.
        exact Hsq.
      * unfold Binary64.square_overflows.
        rewrite (finite_not_infinity _ Hsq). apply andb_false_r.
    + apply add_zero_eqb. apply finite_not_nan. apply square_finite.
      exact Hsq.
  - intros reader fs path info field v Hfs Hget Hfloat.
    unfold pipeline. simpl map. simpl collect.
    rewrite mapper_cases. unfold json_load. rewrite Hfs, Hget, Hfloat. simpl.
    apply reducer_single.
Qed.

Lemma textbook_and_single_document_witness :
  exists mean : float,
    pipeline Binary64.read_digits (Binary64.directory [7.5%float]) ["0.json"]
    = Ok (mean, Float 0%float) /\
    (mean =? 7.5)%float = true.
Proof.
  apply (proj1 (proj2 textbook_and_single_document) Binary64.read_digits
           (Binary64.directory [7.5%float]) "0.json"
           (PyDict [("movieIMDbRating", PyFloat 7.5%float)])
           (PyFloat 7.5%float) 7.5%float).
  - reflexivity.
  - reflexivity.
  - reflexivity.
  - vm_compute. reflexivity.
Defined.

(** C7 as stated fails in binary64: a single document rated 1e200 makes the
    map stage raise, and a single document rated [Infinity] gives a standard
    deviation that is NaN. *)
Lemma single_document_overflow :
  pipeline Binary64.read_digits (Binary64.directory [Binary64.huge])
    (Binary64.names [Binary64.huge])
  = Raise OverflowError /\
  pipeline Binary64.read_digits (Binary64.directory [infinity])
    (Binary64.names [infinity])
  = Ok (infinity, Float nan).
Proof.
  split; vm_compute; reflexivity.
Qed.




(** C2, as the code has it: on no record at all [reducer] raises
    [ZeroDivisionError], in exact arithmetic and in binary64, and so does the
    script on no file; nothing is returned. *)
Theorem empty_input_ZeroDivisionError :
  reducer ([] : list (record R)) = Raise ZeroDivisionError /\
  reducer ([] : list (record float)) = Raise ZeroDivisionError /\
  (forall (reader : string -> option float) (fs : filesystem float),
     run reader fs [] = Raise ZeroDivisionError).
Proof.
  split; [| split].
  - rewrite reducer_exact. reflexivity.
  - vm_compute. reflexivity.
  - intros reader fs. vm_compute. reflexivity.
Qed.

(** C2 as stated fails: the exception on no record is one of Python's
    arithmetic errors. *)
Lemma empty_input_arithmetic_fault :
  exists e, reducer ([] : list (record float)) = Raise e /\
            is_ArithmeticError e = true.
Proof.
  exists ZeroDivisionError. split; vm_compute; reflexivity.
Qed.

(** C1 as stated fails: a non-empty list whose counts sum to zero makes
    [reducer] raise instead of returning a pair; and so does a record with
    the value 1e200, whose mean has no finite square. *)
Lemma reducer_zero_count_raises :
  [(0%Z, 1%float, 1%float)] <> ([] : list (record float)) /\
  reducer [(0%Z, 1%float, 1%float)] = Raise ZeroDivisionError /\
  reducer [(1%Z, Binary64.huge, 0%float)] = Raise OverflowError.
Proof.
  split; [| split].
  - discriminate.
  - vm_compute. reflexivity.
  - vm_compute. reflexivity.
Qed.

(** C3 as stated fails: the variance is negative and [reducer] returns
    normally, with the variance unclamped: on the record [(1, 2.0, 0.0)],
    whose variance is -4.0, and on three documents rated 0.1, where the
    rounding of the sums makes the variance negative. *)
Lemma negative_variance_not_clamped_not_raised :
  reducer [(1%Z, 2%float, 0%float)]
  = Ok (2%float, Complex 0x1.1a62633145c07p-53%float 2%float) /\
  pipeline Binary64.read_digits
    (Binary64.directory [Binary64.tenth; Binary64.tenth; Binary64.tenth])
    (Binary64.names [Binary64.tenth; Binary64.tenth; Binary64.tenth])
  = Ok (0x1.999999999999bp-4%float,
        Complex 0x1.8f5a0be038ed7p-84%float 0x1.6a09e667f3bcdp-30%float).
Proof.
  split; vm_compute; reflexivity.
Qed.

End Pipeline.

(** * Further properties of the code *)

(** ** The sign of the standard deviation in binary64 *)

Section Binary64Sign.

Local Open Scope float_scope.

Lemma pow_half_not_negative (x s : float) :
  Binary64.pow_half x = Float s -> (s <? 0) = false.
Proof.
  unfold Binary64.pow_half.
  destruct (is_nan x) eqn:Hnan.
  - intros H. injection H as <-. apply nan_not_less. exact Hnan.
  - destruct (is_infinity x).
    + intros H. injection H as <-. reflexivity.
    + destruct (is_zero x).
      * intros H. injection H as <-. reflexivity.
      * destruct (x <? 0).
        -- intros H. discriminate H.
        -- intros H. injection H as <-. apply sqrt_not_negative.
Qed.

(** X11: in binary64, when [reducer] returns a real standard deviation, it
    is never less than zero (it can be NaN); a negative variance shows as a
    complex number, never as a negative real. *)
Theorem stddev_never_negative (data : list (record float))
    (mean stddev : float) :
  reducer data = Ok (mean, Float stddev) -> (stddev <? 0) = false.
Proof.
  unfold reducer, finish.
  destruct (truediv _ _) as [m | e]; cbn [bind]; [| discriminate].
  destruct (truediv _ _) as [q | e]; cbn [bind]; [| discriminate].
  destruct (f_pow2 m) as [m2 | e]; cbn [bind]; [| discriminate].
  cbn [f_pow_half Binary64.arith bind].
  intros H. injection H as _ H. exact (pow_half_not_negative _ H).
Qed.

End Binary64Sign.

Lemma stddev_never_negative_witness :
  (0 <? 0)%float = false.
Proof.
  apply (@stddev_never_negative [(1%Z, 2%float, 4%float)] 2%float 0%float).
  vm_compute. reflexivity.
Defined.

(** ** A NaN rating in binary64 *)

Section Binary64NaN.

Local Open Scope float_scope.

(** Once both sums are NaN they stay NaN. *)
Lemma fold_step_nan (data : list (record float)) :
  forall a : accumulator float,
  sum_score a = nan -> sum_score_squared a = nan ->
  sum_score (fold_left step data a) = nan /\
  sum_score_squared (fold_left step data a) = nan.
Proof.
  induction data as [| [[c v] v2] rest IH]; intros [k s q] Hs Hq.
  - split; assumption.
  - simpl in Hs, Hq. subst s q. cbn [fold_left]. apply IH.
    + apply Prim2SF_inj. cbn [step sum_score f_add Binary64.arith].
      rewrite add_spec. reflexivity.
    + apply Prim2SF_inj. cbn [step sum_score_squared f_add Binary64.arith].
      rewrite add_spec. reflexivity.
Qed.

Lemma fold_step_meets_nan (c : Z) (data : list (record float)) :
  forall a : accumulator float,
  In (c, nan, nan) data ->
  sum_score (fold_left step data a) = nan /\
  sum_score_squared (fold_left step data a) = nan.
Proof.
  induction data as [| r rest IH]; intros a Hin.
  - contradiction.
  - cbn [fold_left]. destruct Hin as [-> | Hin].
    + apply fold_step_nan; destruct a as [k s q];
        cbn [step sum_score sum_score_squared f_add Binary64.arith];
        apply add_nan_r.
    + apply IH. exact Hin.
Qed.

(** X12: in binary64, a record whose score and squared score are NaN, as
    [mapper] yields for the rating [NaN], raises nothing of its own and
    spoils both statistics: whenever [reducer] returns on a list with such a
    record, it returns the mean NaN and the standard deviation NaN. *)
Theorem nan_rating_spoils_result (data : list (record float)) (c : Z)
    (v v2 mean : float) (stddev : number float) :
  In (c, v, v2) data ->
  is_nan v = true ->
  is_nan v2 = true ->
  reducer data = Ok (mean, stddev) ->
  mean = nan /\ stddev = Float nan.
Proof.
  intros Hin Hv Hv2. rewrite (is_nan_eq _ Hv), (is_nan_eq _ Hv2) in Hin.
  unfold reducer.
  destruct (fold_step_meets_nan c data initial Hin) as [Hs Hq].
  destruct (fold_left step data initial) as [k s q].
  simpl in Hs, Hq. subst s q.
  unfold finish, truediv. cbn [n sum_score sum_score_squared].
  destruct (f_of_int k) as [d | e]; cbn [bind]; [| discriminate].
  destruct (f_is_zero d); cbn [bind]; [discriminate |].
  cbn [f_div f_pow2 f_sub f_pow_half Binary64.arith].
  rewrite div_nan_l. change (Binary64.pow2 nan) with (Ok nan). cbn [bind].
  rewrite sub_nan_r. change (Binary64.pow_half nan) with (Float nan).
  intros H. injection H as <- <-. split; reflexivity.
Qed.

End Binary64NaN.

Lemma nan_rating_spoils_result_witness :
  nan = nan /\ Float nan = Float nan.
Proof.
  apply (@nan_rating_spoils_result
           [(1%Z, 5%float, 25%float); (1%Z, nan, nan)] 1%Z nan nan
           nan (Float nan)).
  - right. left. reflexivity.
  - reflexivity.
  - reflexivity.
  - vm_compute. reflexivity.
Defined.

(** ** The two stages over any C library *)

Section StagesOverLibm.

Local Open Scope float_scope.

Variable m : CPython.libm.
Variable reader : string -> option float.

Lemma collect_emitted (fs : filesystem float) (files : list string) :
  forall batches : list (list (record float)),
  collect (map (mapper (arith := CPython.arith m) reader fs) files)
  = Ok batches ->
  exists records : list (record float),
    Forall2 (emitted m reader fs) files records /\
    List.concat batches = records.
Proof.
  induction files as [| path rest IH]; intros batches Hok.
  - simpl in Hok. injection Hok as <-. exists []. split; [constructor |].
    reflexivity.
  - cbn [map collect] in Hok.
    destruct (mapper_steps (arith := CPython.arith m) reader fs path)
      as [(e & _ & H) | [(info & e & _ & _ & H) |
          [(info & field & e & _ & _ & _ & H) |
           [(v & e & _ & _ & H) | (v & p & Hrated & Hpow & H)]]]];
      rewrite H in Hok; try discriminate Hok.
    cbn [bind] in Hok.
    destruct (collect (map (mapper (arith := CPython.arith m) reader fs) rest))
      as [others | e] eqn:Hrest; [| discriminate Hok].
    cbn [bind] in Hok. injection Hok as <-.
    destruct (IH others eq_refl) as (records & Hrecords & Hconcat).
    exists ((1%Z, v, p) :: records). split.
    + constructor; [| exact Hrecords]. exists v, p. repeat split; assumption.
    + cbn [List.concat app]. rewrite Hconcat. reflexivity.
Qed.

(** X9: over any C library, the two stages composed return a result only
    when the file list is not empty and every file is a document with a
    rating whose square [v ** 2] the power operator returns; the result is
    then [reducer]'s on one record [(1, v, v ** 2)] per file, in the order of
    the files: no file is skipped and no partial result is returned. *)
Theorem pipeline_all_or_nothing (fs : filesystem float)
    (files : list string) (r : float * number float) :
  pipeline (arith := CPython.arith m) reader fs files = Ok r ->
  files <> [] /\
  exists records : list (record float),
    Forall2 (emitted m reader fs) files records /\
    reducer (arith := CPython.arith m) records = Ok r.
Proof.
  unfold pipeline. intros Hok.
  destruct (collect (map (mapper (arith := CPython.arith m) reader fs) files))
    as [batches | e] eqn:Hc; [| discriminate Hok].
  cbn [bind] in Hok. split.
  - intros ->. simpl in Hc. injection Hc as <-. vm_compute in Hok.
    discriminate Hok.
  - destruct (collect_emitted fs files Hc) as (records & Hrecords & Hconcat).
    rewrite Hconcat in Hok. exists records. split; assumption.
Qed.

(** *** The exceptions of the map stage *)

Lemma py_float_raises (field : pyobj float) (e : exn) :
  py_float (arith := CPython.arith m) reader field = Raise e ->
  e = TypeError \/ e = ValueError \/ e = OverflowError.
Proof.
  assert (Hint : forall z, Binary64.of_int z = Raise e -> e = OverflowError).
  { intros z. unfold Binary64.of_int. destruct (is_infinity _); intros H.
    - injection H as <-. reflexivity.
    - discriminate H. }
  destruct field; cbn [py_float f_of_int CPython.arith]; intros H.
  - injection H as <-. left. reflexivity.
  - right. right. exact (Hint _ H).
  - right. right. exact (Hint _ H).
  - discriminate H.
  - destruct (reader s).
    + discriminate H.
    + injection H as <-. right. left. reflexivity.
  - injection H as <-. left. reflexivity.
  - injection H as <-. left. reflexivity.
Qed.

(** X8: over a C library whose [pow] reports no domain error for a positive
    base, whatever [mapper] raises is the exception that [open] or
    [json.load] raised on its path, or a [KeyError] for the key
    'movieIMDbRating', a [TypeError], a [ValueError] or an
    [OverflowError]. *)
Theorem mapper_exceptions (fs : filesystem float) (path : string) (e : exn) :
  CPython.no_domain_error m ->
  mapper (arith := CPython.arith m) reader fs path = Raise e ->
  json_load fs path = Raise e \/
  e = KeyError key \/ e = TypeError \/ e = ValueError \/ e = OverflowError.
Proof.
  intros Hlib Hraise.
  destruct (mapper_steps (arith := CPython.arith m) reader fs path)
    as [(e' & Hload & H) | [(info & e' & _ & Hget & H) |
        [(info & field & e' & _ & _ & Hfloat & H) |
         [(v & e' & _ & Hpow & H) | (v & p & _ & _ & H)]]]];
    rewrite H in Hraise; try discriminate Hraise; injection Hraise as <-.
  - left. exact Hload.
  - right. destruct (getitem_raises _ _ Hget) as [-> | ->]; auto.
  - right. destruct (py_float_raises _ Hfloat) as [-> | [-> | ->]]; auto.
  - right. cbn [f_pow2 CPython.arith] in Hpow.
    rewrite (@pow2_raises m v e' Hlib Hpow). auto.
Qed.

(** *** One document *)

Lemma pow2_add_zero (v : float) :
  CPython.pow2 m (0 + v) = CPython.pow2 m v.
Proof.
  destruct (Prim2SF v) as [[|] | s | | s k e] eqn:Hv;
    try (rewrite add_zero_l; [reflexivity | rewrite Hv; discriminate]).
  assert (Hzero : v = (-0)%float).
  { apply Prim2SF_inj. rewrite Hv. reflexivity. }
  subst v. reflexivity.
Qed.

Lemma add_zero_sub (p : float) : is_finite p = true -> 0 + p - p = 0.
Proof.
  intros Hp. destruct (Prim2SF p) as [[|] | s | | s k e] eqn:Hv;
    try (rewrite add_zero_l; [apply sub_diag; exact Hp
                             | rewrite Hv; discriminate]).
  assert (Hzero : p = (-0)%float).
  { apply Prim2SF_inj. rewrite Hv. reflexivity. }
  subst p. reflexivity.
Qed.

Lemma pow2_finite (v p : float) :
  CPython.pow2 m v = Ok p -> is_finite p = true -> is_nan v = false.
Proof.
  unfold CPython.pow2. destruct (is_nan v) eqn:Hnan; [| reflexivity].
  intros H Hp. injection H as <-. rewrite (finite_not_nan _ Hp) in Hnan.
  discriminate Hnan.
Qed.

(** X13: over any C library, one document rated [v] whose square [v ** 2]
    the power operator returns finite gives a mean equal to [v] and the
    standard deviation 0.0: the variance is the difference of two equal
    powers, whatever the C library makes of them. *)
Theorem single_document_any_libm (fs : filesystem float) (path : string)
    (v p : float) :
  rated (arith := CPython.arith m) reader fs path v ->
  CPython.pow2 m v = Ok p ->
  is_finite p = true ->
  exists mean : float,
    pipeline (arith := CPython.arith m) reader fs [path]
    = Ok (mean, Float 0) /\
    (mean =? v) = true.
Proof.
  intros Hrated Hpow Hp. exists (0 + v). split.
  - unfold pipeline. cbn [map collect]. rewrite (mapper_rated Hrated).
    cbn [f_pow2 CPython.arith]. rewrite Hpow. cbn [bind List.concat app].
    rewrite reducer_cases.
    change (Spec64.count [(1%Z, v, p)]) with 1.
    change (is_infinity 1) with false. change (is_zero 1) with false.
    cbv iota. unfold Spec64.mean, Spec64.mean_of_squares.
    change (Spec64.count [(1%Z, v, p)]) with 1.
    change (Spec64.S [(1%Z, v, p)]) with (0 + v).
    change (Spec64.Q [(1%Z, v, p)]) with (0 + p).
    rewrite !div_one, pow2_add_zero, Hpow. cbn [bind].
    rewrite (@add_zero_sub p Hp). reflexivity.
  - apply add_zero_eqb. exact (@pow2_finite v p Hpow Hp).
Qed.

End StagesOverLibm.

Lemma mapper_exceptions_witness :
  json_load Binary64.mixed "b.json"%string = Raise (KeyError key) \/
  KeyError key = KeyError key \/ KeyError key = TypeError \/
  KeyError key = ValueError \/ KeyError key = OverflowError.
Proof.
  apply (@mapper_exceptions CPython.rounded Binary64.read_digits
           Binary64.mixed "b.json"%string (KeyError key)).
  - exact rounded_no_domain_error.
  - vm_compute. reflexivity.
Defined.

Lemma pipeline_all_or_nothing_witness :
  Binary64.names Binary64.textbook <> [] /\
  exists records : list (record float),
    Forall2 (emitted CPython.rounded Binary64.read_digits
               (Binary64.directory Binary64.textbook))
      (Binary64.names Binary64.textbook) records /\
    reducer (arith := CPython.arith CPython.rounded) records
    = Ok (5%float, Float 2%float).
Proof.
  apply (@pipeline_all_or_nothing CPython.rounded Binary64.read_digits
           (Binary64.directory Binary64.textbook)
           (Binary64.names Binary64.textbook) (5%float, Float 2%float)).
  vm_compute. reflexivity.
Defined.

Lemma single_document_any_libm_witness :
  exists mean : float,
    pipeline (arith := CPython.arith Examples.off_by_one)
      Binary64.read_digits (Binary64.directory [Examples.odd_rating])
      ["0.json"%string]
    = Ok (mean, Float 0%float) /\
    (mean =? Examples.odd_rating)%float = true.
Proof.
  apply (@single_document_any_libm Examples.off_by_one Binary64.read_digits
           (Binary64.directory [Examples.odd_rating]) "0.json"%string
           Examples.odd_rating Examples.odd_square).
  - exists (PyDict [("movieIMDbRating"%string, PyFloat Examples.odd_rating)]),
      (PyFloat Examples.odd_rating).
    split; [| split]; reflexivity.
  - vm_compute. reflexivity.
  - vm_compute. reflexivity.
Defined.
